(** * Chatterbox: the message-board API of server/app.py and server/models.py

    A shallow embedding of the four request handlers (GET, POST, PATCH and
    DELETE on /messages) and of the [Message] model, over an explicit model
    of the SQLAlchemy session they talk to.

    - JSON request and response bodies are values of [json]; Python's
      truthiness, [in] and [dict.get] are written out on them.
    - The [messages] table is a finite map from primary key to row.
    - A handler is a computation in a state-and-exception monad over the
      session; the clock and the failures of the persistence layer are
      inputs ([env]).

    What lies outside the two source files is modelled as far as the routes
    depend on it: the body of a request arrives parsed; a timestamp is
    rendered by a function the routes are parameterised by; a [String]
    column holds text, the driver binding text, integers and booleans and
    nothing else; and an object whose attributes are read after a commit is
    loaded again from the table, by a statement that can fail. *)

From stdpp Require Import gmap strings list fin_maps pretty sorting.

Set Warnings "-register-all".

Open Scope string_scope.
Open Scope list_scope.
Open Scope Z_scope.

(** ** JSON values, as [request.get_json()] delivers them *)

(** Numbers are the integers of JSON; Python parses them to [int]. A dict
    is listed key by key, each key once. *)
Inductive json : Type :=
  | JNull
  | JBool (b : bool)
  | JNum (n : Z)
  | JStr (s : string)
  | JArr (items : list json)
  | JObj (fields : list (string * json)).

(** Python's [bool(v)]: [None], [False], [0], [''], [[]] and [{}] are falsy. *)
Definition truthy (v : json) : bool :=
  match v with
  | JNull => false
  | JBool b => b
  | JNum n => negb (n =? 0)
  | JStr s => negb (String.eqb s "")
  | JArr items => match items with [] => false | _ => true end
  | JObj fields => match fields with [] => false | _ => true end
  end.

(** Equality of two values. It is Python's [==] whenever one side is text
    or [None], which is how the session uses it: the value loaded from a
    [String] column against the value assigned to the attribute. *)
Fixpoint json_eqb (a b : json) {struct a} : bool :=
  match a, b with
  | JNull, JNull => true
  | JBool x, JBool y => Bool.eqb x y
  | JNum x, JNum y => x =? y
  | JStr x, JStr y => String.eqb x y
  | JArr xs, JArr ys =>
      (fix all2 (xs ys : list json) : bool :=
         match xs, ys with
         | [], [] => true
         | x :: xs', y :: ys' => json_eqb x y && all2 xs' ys'
         | _, _ => false
         end) xs ys
  | JObj xs, JObj ys =>
      (fix all2 (xs ys : list (string * json)) : bool :=
         match xs, ys with
         | [], [] => true
         | (k, x) :: xs', (k', y) :: ys' =>
             String.eqb k k' && json_eqb x y && all2 xs' ys'
         | _, _ => false
         end) xs ys
  | _, _ => false
  end.

(** ** Exceptions and results *)

(** [DatabaseError] stands for every error of the persistence layer that
    is not an integrity error. *)
Inductive exn : Type :=
  | TypeError
  | AttributeError
  | IntegrityError (msg : string)
  | DatabaseError (msg : string).

Definition str_exn (ex : exn) : string :=
  match ex with
  | TypeError => "argument is not iterable"
  | AttributeError => "object has no attribute 'get'"
  | IntegrityError msg => msg
  | DatabaseError msg => msg
  end.

Inductive result (A : Type) : Type :=
  | Ok (a : A)
  | Raise (ex : exn).
Arguments Ok {A} a.
Arguments Raise {A} ex.

(** ** Python's [in] and [.get] on a parsed body *)

Fixpoint assoc (k : string) (fields : list (string * json)) : option json :=
  match fields with
  | [] => None
  | (k', v) :: rest => if String.eqb k k' then Some v else assoc k rest
  end.

Fixpoint substring_of (k s : string) : bool :=
  String.prefix k s ||
  match s with
  | EmptyString => false
  | String _ rest => substring_of k rest
  end.

Definition is_str (k : string) (v : json) : bool :=
  match v with
  | JStr s => String.eqb k s
  | _ => false
  end.

(** [k in data]: key membership on a dict, element membership on a list,
    substring test on a string; the other values are not iterable. *)
Definition py_in (k : string) (data : json) : result bool :=
  match data with
  | JObj fields => Ok (bool_decide (is_Some (assoc k fields)))
  | JArr items => Ok (existsb (is_str k) items)
  | JStr s => Ok (substring_of k s)
  | JNull | JBool _ | JNum _ => Raise TypeError
  end.

(** [all(k in data for k in keys)]: stops at the first key that is absent. *)
Fixpoint py_all_in (keys : list string) (data : json) : result bool :=
  match keys with
  | [] => Ok true
  | k :: rest =>
      match py_in k data with
      | Ok true => py_all_in rest data
      | Ok false => Ok false
      | Raise ex => Raise ex
      end
  end.

(** [data.get(k)]: [None] for an absent key; only a dict has [get]. *)
Definition py_get (data : json) (k : string) : result json :=
  match data with
  | JObj fields => Ok (default JNull (assoc k fields))
  | _ => Raise AttributeError
  end.

(** ** Responses and the custom error handlers *)

Record response : Type := make_response { payload : json; status : Z }.

(** What a handler is called with: an exception, or anything else (the
    routes below always pass a plain string). *)
Inductive error_arg : Type :=
  | ErrText (s : string)
  | ErrException (ex : exn).

Definition error_message (fallback : string) (error : error_arg) : string :=
  match error with
  | ErrException ex => str_exn ex
  | ErrText _ => fallback
  end.

Definition not_found (error : error_arg) : response :=
  let message := error_message "Resource not found" error in
  make_response (JObj [("error", JStr message)]) 404.

Definition bad_request (error : error_arg) : response :=
  let message := error_message "Bad Request" error in
  make_response (JObj [("error", JStr message)]) 400.

Definition internal_server_error (error : error_arg) : response :=
  let message := error_message "Internal Server Error" error in
  make_response (JObj [("error", JStr message)]) 500.

(** ** The Message model (models.py) *)

Definition datetime : Type := Z.

(** A mapped object: [id] is [None] until the object is flushed. *)
Record Message : Type := mkMessage {
  id : option Z;
  body : json;
  username : json;
  created_at : option datetime;
  updated_at : option datetime
}.

(** A row of the [messages] table; the primary key is the key of the map. *)
Record row : Type := mkRow {
  row_body : json;
  row_username : json;
  row_created_at : option datetime;
  row_updated_at : option datetime
}.

Definition columns (m : Message) : row :=
  mkRow (body m) (username m) (created_at m) (updated_at m).

Definition load (i : Z) (r : row) : Message :=
  mkMessage (Some i) (row_body r) (row_username r)
            (row_created_at r) (row_updated_at r).

(** [nullable=False] on [body] and [username]: NOT NULL, nothing more. *)
Definition not_null (v : json) : bool :=
  match v with
  | JNull => false
  | _ => true
  end.

Arguments not_null : simpl never.

(** What a [String] column of the table holds for a value handed to it.
    The driver binds text, an integer that fits 64 bits and a boolean (as
    1 or 0), and the column keeps each as text; it cannot bind a list, a
    dict or a larger integer. [None] is NULL. *)
Definition as_text (v : json) : option json :=
  match v with
  | JNull => Some JNull
  | JBool b => Some (JStr (if b then "1" else "0"))
  | JNum n =>
      if (- 2 ^ 63 <=? n) && (n <? 2 ^ 63)
      then Some (JStr (pretty n))
      else None
  | JStr s => Some (JStr s)
  | JArr _ | JObj _ => None
  end.

(** What an UPDATE leaves in a column that holds [old] when the attribute
    of the object is [new]: the session sets only the columns whose value
    changed. *)
Definition set_column (old new : json) : option json :=
  if json_eqb new old then Some old else as_text new.

Arguments as_text : simpl never.
Arguments set_column : simpl never.

(** The primary key of a mapped object. *)
Definition primary_key (m : Message) : option Z := id m.

(** What an INSERT checks: every NOT NULL column of the new row. *)
Definition constraints_ok (m : Message) : bool :=
  not_null (body m) && not_null (username m).

(** What an UPDATE checks: it sets only the columns whose value changed,
    and NOT NULL is checked on those. *)
Definition column_ok (old new : json) : bool :=
  not_null new || negb (not_null old).

Definition update_ok (old new : row) : bool :=
  column_ok (row_body old) (row_body new)
  && column_ok (row_username old) (row_username new).

(** ** The messages table and the session *)

(** The largest primary key in use, if any. *)
Definition max_key (t : gmap Z row) : option Z :=
  foldr (λ kr acc, Some (match acc with
                         | None => kr.1
                         | Some k => Z.max kr.1 k
                         end))
        None (map_to_list t).

(** [id] is an INTEGER PRIMARY KEY: the store assigns one more than the
    largest key in use, and 1 in an empty table. *)
Definition next_id (t : gmap Z row) : Z :=
  match max_key t with
  | None => 1
  | Some k => k + 1
  end.

(** What the unit of work holds until the next flush. *)
Inductive change : Type :=
  | Insert (r : row)
  | Update (i : Z) (r : row)
  | Delete (i : Z).

(** The calls made on the persistence layer, in program order. *)
Inductive db_call : Type :=
  | CallQueryAll
  | CallQueryGet (i : Z)
  | CallAdd
  | CallDelete
  | CallCommit
  | CallRollback.

Record session : Type := mkSession {
  table : gmap Z row;
  pending : list change;
  calls : list db_call
}.

(** A request starts on a session with nothing pending. *)
Definition idle (t : gmap Z row) : session := mkSession t [] [].

(** The inputs of a request that the handlers do not control: the clock
    read by [datetime.utcnow], and what the persistence layer raises (an
    unreachable database, a lost connection, ...) when the route queries
    it, when it is asked to commit, and when an object is loaded again
    after the commit. *)
Record env : Type := mkEnv {
  utcnow : datetime;
  query_fault : option exn;
  commit_fault : option exn;
  refresh_fault : option exn
}.

(** One statement of a flush. The values of [body] and [username] are
    bound first, and a value the driver cannot bind makes the statement
    fail. An INSERT takes the next key and the [created_at] default
    ([updated_at] has none: [onupdate] applies to UPDATE only), and checks
    NOT NULL; an UPDATE writes the attributes of the object that changed
    (the one route that updates sets [updated_at] itself, so [onupdate]
    never supplies it); an UPDATE or DELETE of a row that is gone is a
    stale-data error. The result carries the flushed object as its
    attributes read once it is loaded again. *)
Definition apply_change (now : datetime) (t : gmap Z row) (c : change)
  : result (gmap Z row * list Message) :=
  match c with
  | Insert r =>
      let i := next_id t in
      match as_text (row_body r), as_text (row_username r) with
      | Some b, Some u =>
          let r' := mkRow b u (Some (default now (row_created_at r)))
                          (row_updated_at r) in
          if constraints_ok (load i r')
          then Ok (<[i := r']> t, [load i r'])
          else Raise (IntegrityError "NOT NULL constraint failed")
      | _, _ => Raise (DatabaseError "Error binding parameter")
      end
  | Update i r =>
      match t !! i with
      | None => Raise (DatabaseError "UPDATE statement matched no row")
      | Some old =>
          match set_column (row_body old) (row_body r),
                set_column (row_username old) (row_username r) with
          | Some b, Some u =>
              let r' := mkRow b u (row_created_at r) (row_updated_at r) in
              if update_ok old r'
              then Ok (<[i := r']> t, [load i r'])
              else Raise (IntegrityError "NOT NULL constraint failed")
          | _, _ => Raise (DatabaseError "Error binding parameter")
          end
      end
  | Delete i =>
      match t !! i with
      | None => Raise (DatabaseError "DELETE statement matched no row")
      | Some _ => Ok (delete i t, [])
      end
  end.

Fixpoint flush (now : datetime) (t : gmap Z row) (cs : list change)
  : result (gmap Z row * list Message) :=
  match cs with
  | [] => Ok (t, [])
  | c :: rest =>
      match apply_change now t c with
      | Raise ex => Raise ex
      | Ok (t', ms) =>
          match flush now t' rest with
          | Raise ex => Raise ex
          | Ok (t'', ms') => Ok (t'', ms ++ ms')
          end
      end
  end.

(** ** The handler monad: session state and Python exceptions *)

Definition M (A : Type) : Type := session → result A * session.

#[export] Instance M_ret : MRet M := λ A a s, (Ok a, s).

#[export] Instance M_bind : MBind M := λ A B f m s,
  match m s with
  | (Ok a, s') => f a s'
  | (Raise ex, s') => (Raise ex, s')
  end.

Definition raise {A : Type} (ex : exn) : M A := λ s, (Raise ex, s).

(** Lifts a pure computation that may raise. *)
Definition lift {A : Type} (r : result A) : M A := λ s, (r, s).

(** [try: body except Exception as ex: handler ex]. *)
Definition try_except {A : Type} (body : M A) (handler : exn → M A) : M A :=
  λ s, match body s with
       | (Ok a, s') => (Ok a, s')
       | (Raise ex, s') => handler ex s'
       end.

Definition record_call (c : db_call) : M unit :=
  λ s, (Ok tt, mkSession (table s) (pending s) (calls s ++ [c])).

(** ** Queries *)

Definition dt_le (a b : option datetime) : bool :=
  match a, b with
  | None, _ => true
  | Some _, None => false
  | Some x, Some y => x <=? y
  end.

Section sorting.
Context {A : Type} (le : A → A → bool).

(** Stable insertion: [x] goes before the first element it does not
    exceed. *)
Fixpoint insert_sorted (x : A) (l : list A) : list A :=
  match l with
  | [] => [x]
  | y :: rest => if le x y then x :: y :: rest else y :: insert_sorted x rest
  end.

Definition sort_by (l : list A) : list A := foldr insert_sorted [] l.
End sorting.

(** [a] comes no later than [b] in the order [le], and strictly before it
    in the order [R] when the two tie. *)
Definition ties_by {A : Type} (le : A → A → bool) (R : relation A)
  (a b : A) : Prop :=
  le a b = true ∧ (le b a = true → R a b).

Definition key_le (a b : Z * row) : bool := a.1 <=? b.1.
Definition created_le (a b : Z * row) : bool :=
  dt_le (row_created_at a.2) (row_created_at b.2).

(** The table as a scan reads it: in primary-key order. *)
Definition scan (t : gmap Z row) : list (Z * row) :=
  sort_by key_le (map_to_list t).

(** [Message.query.order_by(Message.created_at.asc()).all()]: the scan,
    sorted by [created_at] (NULL first), rows that tie staying in scan
    order. *)
Definition message_of (kr : Z * row) : Message := load kr.1 kr.2.

Definition ordered_by_created_at (t : gmap Z row) : list Message :=
  message_of <$> sort_by created_le (scan t).

Definition query_all (e : env) : M (list Message) :=
  record_call CallQueryAll;;
  match query_fault e with
  | Some ex => raise ex
  | None => λ s, (Ok (ordered_by_created_at (table s)), s)
  end.

(** [Message.query.get(id)]. *)
Definition query_get (e : env) (i : Z) : M (option Message) :=
  record_call (CallQueryGet i);;
  match query_fault e with
  | Some ex => raise ex
  | None => λ s, (Ok (load i <$> table s !! i), s)
  end.

(** ** The unit of work *)

Definition stage (c : change) : M unit :=
  λ s, (Ok tt, mkSession (table s) (pending s ++ [c]) (calls s)).

(** [db.session.add(m)]: an object built by the constructor has no key and
    is inserted; one loaded by a query carries its key and is updated. *)
Definition session_add (m : Message) : M unit :=
  record_call CallAdd;;
  match primary_key m with
  | None => stage (Insert (columns m))
  | Some i => stage (Update i (columns m))
  end.

(** [db.session.delete(m)]. *)
Definition session_delete (m : Message) : M unit :=
  record_call CallDelete;;
  match primary_key m with
  | None => raise (DatabaseError "instance is not persisted")
  | Some i => stage (Delete i)
  end.

(** [db.session.commit()]: all pending changes or none. On success the
    flushed objects are returned as the table holds them (new key,
    [created_at], what the columns made of the values): that is what the
    objects read once they are loaded again. *)
Definition session_commit (e : env) : M (list Message) :=
  record_call CallCommit;;
  match commit_fault e with
  | Some ex => raise ex
  | None =>
      λ s, match flush (utcnow e) (table s) (pending s) with
           | Raise ex => (Raise ex, s)
           | Ok (t', ms) => (Ok ms, mkSession t' [] (calls s))
           end
  end.

(** [db.session.rollback()]: drops what is pending. *)
Definition discard_pending : M unit :=
  λ s, (Ok tt, mkSession (table s) [] (calls s)).

Definition session_rollback : M unit :=
  record_call CallRollback;; discard_pending.

(** ** The routes (app.py) *)

Section routes.
(** How the serializer renders a timestamp. *)
Context (strftime : datetime → string).

Definition json_of_datetime (d : option datetime) : json :=
  match d with
  | None => JNull
  | Some t => JStr (strftime t)
  end.

(** [message.to_dict()]: every column of the model. *)
Definition to_dict (m : Message) : json :=
  JObj [("id", match primary_key m with None => JNull | Some i => JNum i end);
        ("body", body m);
        ("username", username m);
        ("created_at", json_of_datetime (created_at m));
        ("updated_at", json_of_datetime (updated_at m))].

(** The object as it reads after the commit that flushed it. *)
Definition refreshed (m : Message) (flushed : list Message) : Message :=
  hd m flushed.

(** The commit expires the object: the first attribute [to_dict] reads
    after it loads the row again, with a SELECT that can fail like any
    other statement. *)
Definition reload (e : env) (m : Message) (flushed : list Message)
  : M Message :=
  match refresh_fault e with
  | Some ex => raise ex
  | None => mret (refreshed m flushed)
  end.

(** [except IntegrityError: ...] before [except Exception as e: ...]. *)
Definition on_commit_error (integrity_text : string) (ex : exn) : M response :=
  match ex with
  | IntegrityError _ =>
      session_rollback;;
      mret (bad_request (ErrText integrity_text))
  | _ =>
      session_rollback;;
      mret (internal_server_error (ErrText (str_exn ex)))
  end.

(** GET /messages *)
Definition get_messages (e : env) : M response :=
  try_except
    (messages ← query_all e;
     let messages_data := to_dict <$> messages in
     mret (make_response (JArr messages_data) 200))
    (λ ex,
       session_rollback;;
       mret (internal_server_error (ErrText (str_exn ex)))).

(** POST /messages *)
Definition create_message (e : env) (data : json) : M response :=
  (* not data or not all(k in data for k in ('body', 'username')) *)
  present ← (if truthy data
             then lift (py_all_in ["body"; "username"] data)
             else mret false);
  if negb present
  then mret (bad_request
               (ErrText "Missing required fields: 'body' and 'username'"))
  else
    body ← lift (py_get data "body");
    username ← lift (py_get data "username");
    if negb (truthy body) || negb (truthy username)
    then mret (bad_request (ErrText "Body and username cannot be empty."))
    else
      try_except
        (let new_message := mkMessage None body username None None in
         session_add new_message;;
         flushed ← session_commit e;
         new_message ← reload e new_message flushed;
         mret (make_response (to_dict new_message) 201))
        (on_commit_error
           "Failed to create message due to data integrity issue.").

(** PATCH /messages/<int:id> *)
Definition update_message (e : env) (id : Z) (data : json) : M response :=
  message ← query_get e id;
  match message with
  | None =>
      mret (not_found
              (ErrText ("Message with id " +:+ pretty id +:+ " not found")))
  | Some message =>
      (* not data or 'body' not in data *)
      present ← (if truthy data then lift (py_in "body" data) else mret false);
      if negb present
      then mret (bad_request
                   (ErrText "Missing 'body' field in request body for update"))
      else
        new_body ← lift (py_get data "body");
        if negb (truthy new_body)
        then mret (bad_request (ErrText "Message body cannot be empty."))
        else
          let message :=
            mkMessage (primary_key message) new_body (username message)
                      (created_at message) (Some (utcnow e)) in
          try_except
            (session_add message;;
             flushed ← session_commit e;
             message ← reload e message flushed;
             mret (make_response (to_dict message) 200))
            (on_commit_error
               "Failed to update message due to data integrity issue.")
  end.

(** DELETE /messages/<int:id> *)
Definition delete_message (e : env) (id : Z) : M response :=
  message ← query_get e id;
  match message with
  | None =>
      mret (not_found
              (ErrText ("Message with id " +:+ pretty id +:+ " not found")))
  | Some message =>
      try_except
        (session_delete message;;
         session_commit e;;
         mret (make_response
                 (JObj [("message",
                         JStr ("Message with id " +:+ pretty id
                               +:+ " successfully deleted"))])
                 200))
        (λ ex,
           session_rollback;;
           mret (internal_server_error (ErrText (str_exn ex))))
  end.
End routes.

(** ** Vocabulary of the properties *)

(** The messages a table holds, in no particular order. *)
Definition rows_of (t : gmap Z row) : list Message :=
  message_of <$> map_to_list t.

Definition created_le_msg (a b : Message) : bool :=
  dt_le (created_at a) (created_at b).

Definition id_lt (a b : Message) : Prop :=
  match id a, id b with
  | Some x, Some y => x < y
  | _, _ => False
  end.

(** The order of a listing: by [created_at], then by [id]. *)
Definition listed_before : relation Message := ties_by created_le_msg id_lt.

(** The value a dict body gives for key [k], if any. *)
Definition field (k : string) (data : json) : option json :=
  match data with
  | JObj fields => assoc k fields
  | _ => None
  end.

(** The request has no truthy value for [k]: the body is falsy (absent,
    [null], [{}], ...), or it is a dict where [k] is missing or falsy. *)
Definition lacks (k : string) (data : json) : bool :=
  match data with
  | JObj fields => negb (truthy (default JNull (assoc k fields)))
  | _ => negb (truthy data)
  end.

(** The body of every error response. *)
Definition error_body (msg : string) : json := JObj [("error", JStr msg)].

(** The three error responses the routes can give: the handlers are
    always called with a plain string, so the message is the fallback. *)
Definition bad_request_response : response :=
  make_response (error_body "Bad Request") 400.
Definition not_found_response : response :=
  make_response (error_body "Resource not found") 404.
Definition internal_error_response : response :=
  make_response (error_body "Internal Server Error") 500.

(** The row POST /messages inserts, and the row PATCH leaves behind. *)
Definition created_row (e : env) (b u : json) : row :=
  mkRow b u (Some (utcnow e)) None.
Definition patched_row (e : env) (b : json) (r : row) : row :=
  mkRow b (row_username r) (row_created_at r) (Some (utcnow e)).

Definition deleted_body (i : Z) : json :=
  JObj [("message",
         JStr ("Message with id " +:+ pretty i +:+ " successfully deleted"))].

(** An environment in which nothing raises, at a given time. *)
Definition quiet (now : datetime) : env := mkEnv now None None None.

(** A table with one message, and two request bodies. *)
Definition one_message : gmap Z row :=
  {[1 := mkRow (JStr "hi") (JStr "ana") (Some 100) None]}.
Definition hi_from_ana : json :=
  JObj [("body", JStr "hi"); ("username", JStr "ana")].
Definition hi_there : json := JObj [("body", JStr "hi there")].

(** Every row has a truthy [body] and [username]. *)
Definition non_empty_rows (t : gmap Z row) : Prop :=
  ∀ i r, t !! i = Some r →
         truthy (row_body r) = true ∧ truthy (row_username r) = true.

(** ** Vocabulary of the further properties *)

(** The two answers that report success. *)
Definition succeeded (resp : response) : bool :=
  (status resp =? 200) || (status resp =? 201).

Definition reports_success (r : result response) : bool :=
  match r with
  | Ok resp => succeeded resp
  | Raise _ => false
  end.

(** The answer of POST and of PATCH to a commit that raised [ex]. *)
Definition commit_error_response (ex : exn) : response :=
  match ex with
  | IntegrityError _ => bad_request_response
  | _ => internal_error_response
  end.

(** [updated_at], once set, is not before [created_at]. *)
Definition timestamps_ordered (t : gmap Z row) : Prop :=
  ∀ i r, t !! i = Some r →
         row_updated_at r = None
         ∨ dt_le (row_created_at r) (row_updated_at r) = true.

(** No row was created after the clock reading of the request. *)
Definition clock_not_behind (e : env) (t : gmap Z row) : Prop :=
  ∀ i r, t !! i = Some r →
         dt_le (row_created_at r) (Some (utcnow e)) = true.

(** How a request that started on table [t] ended: nothing is left
    pending, and unless it answered 200 or 201 the table is still [t]. *)
Definition harmless_unless_success
  (t : gmap Z row) (o : result response * session) : Prop :=
  pending o.2 = [] ∧ (reports_success o.1 = false → table o.2 = t).

(** Every row of [t] is in [t'] with the same username and created_at,
    unless it is gone. *)
Definition keeps_author_and_creation (t t' : gmap Z row) : Prop :=
  ∀ j r r', t !! j = Some r → t' !! j = Some r' →
            row_username r' = row_username r
            ∧ row_created_at r' = row_created_at r.

(** The message under key [i] after a PATCH with body [b]. *)
Definition patched (e : env) (i : Z) (b : json) (m : Message) : Message :=
  if decide (id m = Some i)
  then mkMessage (id m) b (username m) (created_at m) (Some (utcnow e))
  else m.

(** The ids of a listing, in the order GET /messages gives them. *)
Definition listed_ids (t : gmap Z row) : list (option Z) :=
  id <$> ordered_by_created_at t.

(** The answer of a route, when it gives one, is as [P] says. *)
Definition answer_is (P : response → Prop)
  (o : result response * session) : Prop :=
  match o.1 with
  | Ok resp => P resp
  | Raise _ => True
  end.

(** [db.session.commit()], [db.session.rollback()] was called. *)
Definition committed (s : session) : bool :=
  existsb (λ c, match c with CallCommit => true | _ => false end) (calls s).
Definition rolled_back (s : session) : bool :=
  existsb (λ c, match c with CallRollback => true | _ => false end) (calls s).

(** Every row holds, in [body] and [username], something a [String] column
    can hold: text, or NULL. *)
Definition text_rows (t : gmap Z row) : Prop :=
  ∀ i r, t !! i = Some r →
         as_text (row_body r) = Some (row_body r)
         ∧ as_text (row_username r) = Some (row_username r).

(** A table with two messages, the one with the larger id created first. *)
Definition two_messages : gmap Z row :=
  {[1 := mkRow (JStr "hi") (JStr "ana") (Some 100) None;
    2 := mkRow (JStr "yo") (JStr "bob") (Some 50) (Some 60)]}.

(** * Properties *)

(** ** The key allocator *)

Lemma max_key_bound (t : gmap Z row) (i : Z) (r : row) :
  t !! i = Some r → ∃ k, max_key t = Some k ∧ i ≤ k.
Proof.
  intros Hi. apply elem_of_map_to_list in Hi. unfold max_key.
  induction (map_to_list t) as [|[j r'] l IH]; [by inv Hi|].
  simpl. apply elem_of_cons in Hi as [Heq|Hin].
  - inv Heq. destruct (foldr _ None l); eexists; split; eauto; lia.
  - destruct (IH Hin) as (k & -> & Hle). eexists; split; eauto. lia.
Qed.

Lemma next_id_fresh (t : gmap Z row) : t !! next_id t = None.
Proof.
  destruct (t !! next_id t) as [r|] eqn:E; [|done].
  destruct (max_key_bound _ _ _ E) as (k & Hk & Hle).
  unfold next_id in Hle. rewrite Hk in Hle. lia.
Qed.

Lemma next_id_empty : next_id ∅ = 1.
Proof. unfold next_id, max_key. by rewrite map_to_list_empty. Qed.

(** ** Sorting *)

Section sorting_facts.
Context {A : Type} (le : A → A → bool) (R : relation A).
Hypothesis le_total : ∀ a b, le a b = false → le b a = true.

Lemma insert_sorted_Permutation (x : A) (l : list A) :
  insert_sorted le x l ≡ₚ x :: l.
Proof.
  induction l as [|y l IH]; simpl; [done|].
  destruct (le x y); [done|]. rewrite IH. apply Permutation_swap.
Qed.

Lemma sort_by_Permutation (l : list A) : sort_by le l ≡ₚ l.
Proof.
  induction l as [|x l IH]; simpl; [done|].
  by rewrite insert_sorted_Permutation, IH.
Qed.

Lemma insert_sorted_HdRel (x y : A) (l : list A) :
  ties_by le R y x → HdRel (ties_by le R) y l →
  HdRel (ties_by le R) y (insert_sorted le x l).
Proof.
  intros Hyx Hl. destruct l as [|z l]; simpl; [by constructor|].
  destruct (le x z); constructor; [done|]. by inv Hl.
Qed.

Lemma insert_sorted_Sorted (x : A) (l : list A) :
  Forall (R x) l → Sorted (ties_by le R) l →
  Sorted (ties_by le R) (insert_sorted le x l).
Proof.
  intros Hx Hl. induction Hl as [|y l Hl IH Hy]; simpl.
  { repeat constructor. }
  inv Hx. destruct (le x y) eqn:Hxy.
  - constructor; [by constructor|]. constructor. split; auto.
  - constructor; [auto|]. apply insert_sorted_HdRel; [|done].
    split; [auto|]. intros Hxy'. congruence.
Qed.

Lemma sort_by_Sorted (l : list A) :
  StronglySorted R l → Sorted (ties_by le R) (sort_by le l).
Proof.
  induction 1 as [|x l Hl IH Hx]; simpl; [constructor|].
  apply insert_sorted_Sorted; [|done].
  by rewrite sort_by_Permutation.
Qed.
End sorting_facts.

Lemma Sorted_weaken {A : Type} (R1 R2 : relation A) (l : list A) :
  (∀ a b, R1 a b → R2 a b) → Sorted R1 l → Sorted R2 l.
Proof.
  intros HR. induction 1 as [|x l Hl IH Hx]; constructor; [done|].
  destruct Hx; constructor; auto.
Qed.

Lemma dt_le_total (a b : option datetime) : dt_le a b = false → dt_le b a = true.
Proof. destruct a, b; simpl; try done. intros ?%Z.leb_gt. apply Z.leb_le. lia. Qed.

Lemma dt_le_trans (a b c : option datetime) :
  dt_le a b = true → dt_le b c = true → dt_le a c = true.
Proof.
  destruct a, b, c; simpl; try done.
  rewrite !Z.leb_le. lia.
Qed.

(** The scan lists the rows of the table, each once, by increasing key. *)
Lemma scan_Permutation (t : gmap Z row) : scan t ≡ₚ map_to_list t.
Proof. apply sort_by_Permutation. Qed.

Lemma strict_of_NoDup (l : list (Z * row)) :
  NoDup l.*1 → StronglySorted (λ a b, a.1 ≤ b.1) l →
  StronglySorted (λ a b, a.1 < b.1) l.
Proof.
  induction 2 as [|x l Hl IH Hx]; [constructor|].
  apply NoDup_cons in H as [Hnin Hnd]. constructor; [auto|].
  apply Forall_forall. intros y Hy.
  rewrite Forall_forall in Hx. specialize (Hx y Hy).
  assert (x.1 ≠ y.1); [|lia].
  intros Heq. apply Hnin. rewrite Heq. by apply list_elem_of_fmap_2.
Qed.

Lemma scan_sorted (t : gmap Z row) :
  StronglySorted (λ a b, a.1 < b.1) (scan t).
Proof.
  apply strict_of_NoDup.
  - rewrite scan_Permutation. apply NoDup_fst_map_to_list.
  - apply Sorted.Sorted_StronglySorted; [intros ???; lia|]. unfold scan.
    eapply Sorted_weaken; last first.
    + apply (sort_by_Sorted key_le (λ _ _, True)).
      * unfold key_le. intros a b ?%Z.leb_gt. apply Z.leb_le. lia.
      * induction (map_to_list t); constructor; auto.
        by apply Forall_forall.
    + intros a b [Hab _]. by apply Z.leb_le in Hab.
Qed.

Lemma ties_by_created_trans :
  Transitive (ties_by created_le (λ a b : Z * row, a.1 < b.1)).
Proof.
  intros a b c [Hab Hab'] [Hbc Hbc']. unfold created_le in *. split.
  - eauto using dt_le_trans.
  - intros Hca.
    assert (a.1 < b.1) by eauto using dt_le_trans.
    assert (b.1 < c.1) by eauto using dt_le_trans.
    lia.
Qed.

Lemma ordered_by_created_at_Permutation (t : gmap Z row) :
  ordered_by_created_at t ≡ₚ rows_of t.
Proof.
  unfold ordered_by_created_at, rows_of.
  by rewrite sort_by_Permutation, scan_Permutation.
Qed.

Lemma ordered_by_created_at_sorted (t : gmap Z row) :
  StronglySorted listed_before (ordered_by_created_at t).
Proof.
  unfold ordered_by_created_at.
  apply StronglySorted_fmap
    with (R1 := ties_by created_le (λ a b : Z * row, a.1 < b.1)).
  { intros a b [Hab Hab']. split; [done|]. intros Hba.
    unfold id_lt. simpl. auto. }
  apply Sorted.Sorted_StronglySorted; [apply ties_by_created_trans|].
  apply sort_by_Sorted; [|apply scan_sorted].
  intros a b. apply dt_le_total.
Qed.

Lemma ordered_by_created_at_empty : ordered_by_created_at ∅ = [].
Proof.
  unfold ordered_by_created_at, scan. by rewrite map_to_list_empty.
Qed.


(** ** Running the routes *)

Ltac run :=
  unfold get_messages, create_message, update_message, delete_message,
    on_commit_error, try_except, session_add, session_delete, session_commit,
    session_rollback, discard_pending, query_get, query_all, stage,
    record_call, lift, raise, reload, refreshed, mbind, M_bind, mret, M_ret;
  simpl.

Lemma field_Some (k : string) (data v : json) :
  field k data = Some v → ∃ fields, data = JObj fields ∧ assoc k fields = Some v.
Proof. destruct data; simpl; try done. eauto. Qed.

Lemma truthy_not_null (v : json) : truthy v = true → not_null v = true.
Proof. by destruct v. Qed.

Lemma assoc_Some_truthy (k : string) (fields : list (string * json)) (v : json) :
  assoc k fields = Some v → truthy (JObj fields) = true.
Proof. by destruct fields. Qed.

Lemma constraints_ok_load (i : Z) (b u : json) (c d : option datetime) :
  constraints_ok (load i (mkRow b u c d)) = not_null b && not_null u.
Proof. done. Qed.

(** ** What a column holds *)

Lemma json_eqb_refl (a : json) : json_eqb a a = true.
Proof.
  revert a. fix IH 1. intros [|b|n|s|items|fields]; simpl.
  - done.
  - by destruct b.
  - apply Z.eqb_refl.
  - apply String.eqb_refl.
  - induction items as [|x items IHitems]; [done|].
    by rewrite IH, IHitems.
  - induction fields as [|[k x] fields IHfields]; [done|].
    by rewrite String.eqb_refl, IH, IHfields.
Qed.

Lemma json_eqb_truthy (a b : json) : json_eqb a b = true → truthy b = truthy a.
Proof.
  destruct a as [|x|x|x|xs|xs], b as [|y|y|y|ys|ys]; simpl; try done.
  - by intros ->%Bool.eqb_prop.
  - by intros ->%Z.eqb_eq.
  - by intros ->%String.eqb_eq.
  - by destruct xs, ys.
  - destruct xs as [|[??]?], ys as [|[??]?]; done.
Qed.

Lemma pretty_N_go_length (x : N) (s : string) :
  (String.length s ≤ String.length (pretty_N_go x s))%nat.
Proof.
  revert s. induction (N.lt_wf_0 x) as [x _ IH]; intros s.
  assert (x = 0 ∨ 0 < x)%N as [->|?] by lia; [by rewrite pretty_N_go_0|].
  rewrite pretty_N_go_step by done.
  etrans; [|by eapply IH, N.div_lt]. simpl. lia.
Qed.

(** The decimal text of a number is never the empty string. *)
Lemma pretty_Z_non_empty (n : Z) : pretty n ≠ "".
Proof.
  destruct n as [|p|p]; [done| |done].
  unfold pretty, pretty_Z, pretty, pretty_positive, pretty, pretty_N.
  rewrite decide_False by done.
  rewrite pretty_N_go_step by lia.
  intros Heq.
  pose proof (pretty_N_go_length (N.pos p `div` 10)
                (String (pretty_N_char (N.pos p `mod` 10)) "")) as Hlen.
  rewrite Heq in Hlen. simpl in Hlen. lia.
Qed.

(** What the column holds for a truthy value is truthy: the text of a
    non-zero number or of [true] is not empty. *)
Lemma as_text_truthy (v w : json) :
  truthy v = true → as_text v = Some w → truthy w = true.
Proof.
  unfold as_text. destruct v as [|b|n|s|items|fields]; simpl; try done.
  - by intros -> [= <-].
  - intros _. case_match; [|done]. intros [= <-]. simpl.
    apply negb_true_iff, String.eqb_neq, pretty_Z_non_empty.
  - by intros ? [= <-].
Qed.

Lemma as_text_text (v : json) :
  as_text v = Some v → v = JNull ∨ ∃ s, v = JStr s.
Proof.
  unfold as_text. destruct v as [|b|n|s|items|fields]; try done; eauto.
  by case_match.
Qed.

Lemma as_text_unbound (v : json) :
  truthy v = true → as_text v = None →
  (∃ n, v = JNum n ∧ ¬ (- 2 ^ 63 ≤ n < 2 ^ 63))
  ∨ (∃ items, v = JArr items) ∨ (∃ fields, v = JObj fields).
Proof.
  unfold as_text. destruct v as [|b|n|s|items|fields]; try done; eauto.
  intros _. case_match eqn:Hn; [done|]. intros _. left. exists n.
  split; [done|]. apply andb_false_iff in Hn as [Hn%Z.leb_gt|Hn%Z.ltb_ge]; lia.
Qed.

Lemma set_column_same (v : json) : set_column v v = Some v.
Proof. unfold set_column. by rewrite json_eqb_refl. Qed.

(** Text is stored as it is. *)
Lemma set_column_text (old v : json) :
  as_text v = Some v → set_column old v = Some v.
Proof.
  intros Hv. unfold set_column. destruct (json_eqb v old) eqn:Heq; [|done].
  destruct (as_text_text _ Hv) as [->|[s ->]]; destruct old; try done.
  simpl in Heq. by apply String.eqb_eq in Heq as ->.
Qed.

Lemma set_column_truthy (old v w : json) :
  truthy v = true → set_column old v = Some w → truthy w = true.
Proof.
  unfold set_column. intros Tv. destruct (json_eqb v old) eqn:Heq.
  - intros [= <-]. by rewrite (json_eqb_truthy _ _ Heq).
  - by apply as_text_truthy.
Qed.



Section runs.
Context (strftime : datetime → string).

Lemma get_messages_listed (e : env) (t : gmap Z row) :
  query_fault e = None →
  get_messages strftime e (idle t)
  = (Ok (make_response
           (JArr (to_dict strftime <$> ordered_by_created_at t)) 200),
     mkSession t [] [CallQueryAll]).
Proof. intros Hq. run. by rewrite Hq. Qed.

Lemma create_message_lacking (e : env) (data : json) (s : session) :
  lacks "body" data = true ∨ lacks "username" data = true →
  create_message strftime e data s = (Ok bad_request_response, s).
Proof.
  intros H. destruct (truthy data) eqn:Ht; [|run; by rewrite Ht].
  destruct data as [|b|n|str|items|fields]; unfold lacks in H;
    rewrite ?Ht in H; try by destruct H.
  run. simpl in Ht. rewrite Ht. simpl.
  destruct (assoc "body" fields) as [b|] eqn:Hb;
    destruct (assoc "username" fields) as [u|] eqn:Hu; simpl in *;
    try done; try by destruct H.
  destruct H as [H|H]; apply negb_true_iff in H; rewrite H; simpl; try done.
  by rewrite orb_true_r.
Qed.

Lemma create_message_validated (e : env) (data b u : json) (s : session) :
  field "body" data = Some b → field "username" data = Some u →
  truthy b = true → truthy u = true →
  create_message strftime e data s
  = try_except
      (session_add (mkMessage None b u None None);;
       flushed ← session_commit e;
       new_message ← reload e (mkMessage None b u None None) flushed;
       mret (make_response (to_dict strftime new_message) 201))
      (on_commit_error "Failed to create message due to data integrity issue.")
      s.
Proof.
  intros (fields & -> & Hb)%field_Some Hu Tb Tu. simpl in Hu.
  pose proof (assoc_Some_truthy _ _ _ Hb) as Ht. simpl in Ht.
  unfold create_message at 1, mbind at 1 2 3, M_bind at 1 2 3, lift. simpl.
  rewrite Ht. simpl. rewrite Hb, Hu. simpl. by rewrite Tb, Tu.
Qed.

(** The commit and the reading that follows go through: the new row holds
    what the columns make of the two values. *)
Lemma create_message_stored
  (e : env) (data b u vb vu : json) (t : gmap Z row) :
  field "body" data = Some b → field "username" data = Some u →
  truthy b = true → truthy u = true →
  as_text b = Some vb → as_text u = Some vu →
  commit_fault e = None → refresh_fault e = None →
  create_message strftime e data (idle t)
  = (Ok (make_response
           (to_dict strftime (load (next_id t) (created_row e vb vu))) 201),
     mkSession (<[next_id t := created_row e vb vu]> t) []
               [CallAdd; CallCommit]).
Proof.
  intros Hb Hu Tb Tu Bb Bu Hc Hr.
  rewrite (create_message_validated _ _ _ _ _ Hb Hu Tb Tu). run.
  rewrite Hc. simpl. rewrite Bb, Bu. simpl. rewrite constraints_ok_load.
  rewrite (truthy_not_null _ (as_text_truthy _ _ Tb Bb)).
  rewrite (truthy_not_null _ (as_text_truthy _ _ Tu Bu)). simpl.
  by rewrite Hr.
Qed.

Lemma create_message_created (e : env) (data b u : json) (t : gmap Z row) :
  field "body" data = Some b → field "username" data = Some u →
  truthy b = true → truthy u = true →
  as_text b = Some b → as_text u = Some u →
  commit_fault e = None → refresh_fault e = None →
  create_message strftime e data (idle t)
  = (Ok (make_response
           (to_dict strftime (load (next_id t) (created_row e b u))) 201),
     mkSession (<[next_id t := created_row e b u]> t) []
               [CallAdd; CallCommit]).
Proof. apply create_message_stored. Qed.

Lemma create_message_commit_raises
  (e : env) (data b u : json) (t : gmap Z row) (ex : exn) :
  field "body" data = Some b → field "username" data = Some u →
  truthy b = true → truthy u = true → commit_fault e = Some ex →
  create_message strftime e data (idle t)
  = (Ok (match ex with
         | IntegrityError _ => bad_request_response
         | _ => internal_error_response
         end),
     mkSession t [] [CallAdd; CallCommit; CallRollback]).
Proof.
  intros Hb Hu Tb Tu Hc.
  rewrite (create_message_validated _ _ _ _ _ Hb Hu Tb Tu). run.
  rewrite Hc. by destruct ex.
Qed.

(** A value the driver cannot bind: the INSERT fails, the route rolls back
    and answers 500. *)
Lemma create_message_unbound
  (e : env) (data b u : json) (t : gmap Z row) :
  field "body" data = Some b → field "username" data = Some u →
  truthy b = true → truthy u = true →
  as_text b = None ∨ as_text u = None → commit_fault e = None →
  create_message strftime e data (idle t)
  = (Ok internal_error_response,
     mkSession t [] [CallAdd; CallCommit; CallRollback]).
Proof.
  intros Hb Hu Tb Tu Hn Hc.
  rewrite (create_message_validated _ _ _ _ _ Hb Hu Tb Tu). run.
  rewrite Hc. simpl.
  destruct Hn as [-> | ->]; [done|]. by destruct (as_text b).
Qed.

(** The commit goes through and the reading that follows raises: the row
    is in the table, and the route answers as to a failed commit. *)
Lemma create_message_reload_raises
  (e : env) (data b u vb vu : json) (t : gmap Z row) (ex : exn) :
  field "body" data = Some b → field "username" data = Some u →
  truthy b = true → truthy u = true →
  as_text b = Some vb → as_text u = Some vu →
  commit_fault e = None → refresh_fault e = Some ex →
  create_message strftime e data (idle t)
  = (Ok (match ex with
         | IntegrityError _ => bad_request_response
         | _ => internal_error_response
         end),
     mkSession (<[next_id t := created_row e vb vu]> t) []
               [CallAdd; CallCommit; CallRollback]).
Proof.
  intros Hb Hu Tb Tu Bb Bu Hc Hr.
  rewrite (create_message_validated _ _ _ _ _ Hb Hu Tb Tu). run.
  rewrite Hc. simpl. rewrite Bb, Bu. simpl. rewrite constraints_ok_load.
  rewrite (truthy_not_null _ (as_text_truthy _ _ Tb Bb)).
  rewrite (truthy_not_null _ (as_text_truthy _ _ Tu Bu)). simpl.
  rewrite Hr. by destruct ex.
Qed.

Lemma update_message_unknown (e : env) (i : Z) (data : json) (t : gmap Z row) :
  query_fault e = None → t !! i = None →
  update_message strftime e i data (idle t)
  = (Ok not_found_response, mkSession t [] [CallQueryGet i]).
Proof. intros Hq Hi. run. rewrite Hq. simpl. by rewrite Hi. Qed.

Lemma update_message_lacking
  (e : env) (i : Z) (data : json) (t : gmap Z row) (r : row) :
  query_fault e = None → t !! i = Some r → lacks "body" data = true →
  update_message strftime e i data (idle t)
  = (Ok bad_request_response, mkSession t [] [CallQueryGet i]).
Proof.
  intros Hq Hi H. run. rewrite Hq. simpl. rewrite Hi. simpl.
  destruct (truthy data) eqn:Ht; [|done].
  destruct data as [|b|n|str|items|fields]; unfold lacks in H;
    rewrite ?Ht in H; try done.
  simpl. apply negb_true_iff in H.
  destruct (assoc "body" fields) as [b|] eqn:Hb; simpl in *; [|done].
  by rewrite H.
Qed.

Lemma update_message_validated
  (e : env) (i : Z) (data b : json) (t : gmap Z row) (r : row) :
  query_fault e = None → t !! i = Some r →
  field "body" data = Some b → truthy b = true →
  update_message strftime e i data (idle t)
  = try_except
      (session_add (load i (patched_row e b r));;
       flushed ← session_commit e;
       message ← reload e (load i (patched_row e b r)) flushed;
       mret (make_response (to_dict strftime message) 200))
      (on_commit_error "Failed to update message due to data integrity issue.")
      (mkSession t [] [CallQueryGet i]).
Proof.
  intros Hq Hi (fields & -> & Hb)%field_Some Tb.
  unfold update_message at 1, query_get, record_call, lift,
    mbind at 1 2 3 4, M_bind at 1 2 3 4.
  pose proof (assoc_Some_truthy _ _ _ Hb) as Ht. simpl in Ht.
  simpl. rewrite Hq. simpl. rewrite Hi. simpl. rewrite Ht. simpl.
  rewrite Hb. simpl. by rewrite Tb.
Qed.

(** The commit and the reading that follows go through: the row holds what
    the column makes of the new body. *)
Lemma update_message_stored
  (e : env) (i : Z) (data b vb : json) (t : gmap Z row) (r : row) :
  query_fault e = None → commit_fault e = None → refresh_fault e = None →
  t !! i = Some r → field "body" data = Some b → truthy b = true →
  set_column (row_body r) b = Some vb →
  update_message strftime e i data (idle t)
  = (Ok (make_response
           (to_dict strftime (load i (patched_row e vb r))) 200),
     mkSession (<[i := patched_row e vb r]> t) []
               [CallQueryGet i; CallAdd; CallCommit]).
Proof.
  intros Hq Hc Hr Hi Hb Tb Bb.
  rewrite (update_message_validated _ _ _ _ _ _ Hq Hi Hb Tb). run.
  rewrite Hc. simpl. rewrite Hi. simpl. rewrite Bb, set_column_same. simpl.
  unfold update_ok, column_ok. simpl.
  rewrite (truthy_not_null _ (set_column_truthy _ _ _ Tb Bb)). simpl.
  rewrite orb_negb_r. simpl. by rewrite Hr.
Qed.

Lemma update_message_updated
  (e : env) (i : Z) (data b : json) (t : gmap Z row) (r : row) :
  query_fault e = None → commit_fault e = None → refresh_fault e = None →
  t !! i = Some r → field "body" data = Some b → truthy b = true →
  as_text b = Some b →
  update_message strftime e i data (idle t)
  = (Ok (make_response
           (to_dict strftime (load i (patched_row e b r))) 200),
     mkSession (<[i := patched_row e b r]> t) []
               [CallQueryGet i; CallAdd; CallCommit]).
Proof.
  intros Hq Hc Hr Hi Hb Tb Bb.
  apply (update_message_stored _ _ _ b); try done.
  by apply set_column_text.
Qed.

Lemma update_message_commit_raises
  (e : env) (i : Z) (data b : json) (t : gmap Z row) (r : row) (ex : exn) :
  query_fault e = None → commit_fault e = Some ex → t !! i = Some r →
  field "body" data = Some b → truthy b = true →
  update_message strftime e i data (idle t)
  = (Ok (match ex with
         | IntegrityError _ => bad_request_response
         | _ => internal_error_response
         end),
     mkSession t [] [CallQueryGet i; CallAdd; CallCommit; CallRollback]).
Proof.
  intros Hq Hc Hi Hb Tb.
  rewrite (update_message_validated _ _ _ _ _ _ Hq Hi Hb Tb). run.
  rewrite Hc. by destruct ex.
Qed.

Lemma update_message_unbound
  (e : env) (i : Z) (data b : json) (t : gmap Z row) (r : row) :
  query_fault e = None → commit_fault e = None → t !! i = Some r →
  field "body" data = Some b → truthy b = true →
  set_column (row_body r) b = None →
  update_message strftime e i data (idle t)
  = (Ok internal_error_response,
     mkSession t [] [CallQueryGet i; CallAdd; CallCommit; CallRollback]).
Proof.
  intros Hq Hc Hi Hb Tb Bb.
  rewrite (update_message_validated _ _ _ _ _ _ Hq Hi Hb Tb). run.
  rewrite Hc. simpl. rewrite Hi. simpl. by rewrite Bb.
Qed.

Lemma update_message_reload_raises
  (e : env) (i : Z) (data b vb : json) (t : gmap Z row) (r : row) (ex : exn) :
  query_fault e = None → commit_fault e = None → refresh_fault e = Some ex →
  t !! i = Some r → field "body" data = Some b → truthy b = true →
  set_column (row_body r) b = Some vb →
  update_message strftime e i data (idle t)
  = (Ok (match ex with
         | IntegrityError _ => bad_request_response
         | _ => internal_error_response
         end),
     mkSession (<[i := patched_row e vb r]> t) []
               [CallQueryGet i; CallAdd; CallCommit; CallRollback]).
Proof.
  intros Hq Hc Hr Hi Hb Tb Bb.
  rewrite (update_message_validated _ _ _ _ _ _ Hq Hi Hb Tb). run.
  rewrite Hc. simpl. rewrite Hi. simpl. rewrite Bb, set_column_same. simpl.
  unfold update_ok, column_ok. simpl.
  rewrite (truthy_not_null _ (set_column_truthy _ _ _ Tb Bb)). simpl.
  rewrite orb_negb_r. simpl. rewrite Hr. by destruct ex.
Qed.
End runs.

Lemma delete_message_unknown (e : env) (i : Z) (t : gmap Z row) :
  query_fault e = None → t !! i = None →
  delete_message e i (idle t)
  = (Ok not_found_response, mkSession t [] [CallQueryGet i]).
Proof. intros Hq Hi. run. rewrite Hq. simpl. by rewrite Hi. Qed.

Lemma delete_message_deleted (e : env) (i : Z) (t : gmap Z row) (r : row) :
  query_fault e = None → commit_fault e = None → t !! i = Some r →
  delete_message e i (idle t)
  = (Ok (make_response (deleted_body i) 200),
     mkSession (delete i t) [] [CallQueryGet i; CallDelete; CallCommit]).
Proof.
  intros Hq Hc Hi. run. rewrite Hq. simpl. rewrite Hi. simpl.
  rewrite Hc. simpl. by rewrite Hi.
Qed.

(** ** Listing *)

Section listing.
Context (strftime : datetime → string).

(** C3. When the query goes through, GET /messages answers 200 with an
    array holding every stored message exactly once, in non-decreasing
    order of created_at, rows with the same created_at in increasing order
    of id; the session is left as it was but for the one query, and an
    empty table gives the empty array. *)
Theorem get_messages_lists_all_sorted (e : env) (t : gmap Z row) :
  query_fault e = None →
  ∃ messages,
    get_messages strftime e (idle t)
    = (Ok (make_response (JArr (to_dict strftime <$> messages)) 200),
       mkSession t [] [CallQueryAll])
    ∧ messages ≡ₚ rows_of t
    ∧ StronglySorted listed_before messages
    ∧ (t = ∅ → messages = []).
Proof.
  intros Hq. exists (ordered_by_created_at t). split; [|split; [|split]].
  - by apply get_messages_listed.
  - apply ordered_by_created_at_Permutation.
  - apply ordered_by_created_at_sorted.
  - intros ->. apply ordered_by_created_at_empty.
Qed.
End listing.

(** ** Validation *)

Lemma lacks_missing (k : string) (fields : list (string * json)) :
  assoc k fields = None → lacks k (JObj fields) = true.
Proof. intros H. simpl. by rewrite H. Qed.

Lemma lacks_falsy (k : string) (fields : list (string * json)) (v : json) :
  assoc k fields = Some v → truthy v = false → lacks k (JObj fields) = true.
Proof. intros H Hv. simpl. rewrite H. simpl. by rewrite Hv. Qed.

Section validation.
Context (strftime : datetime → string).

(** C1, as amended. POST /messages checks its fields before it calls the
    persistence layer at all: a request with no truthy body or username is
    answered 400 and the session is exactly as it was. PATCH /messages/{id}
    looks the id up first: with no truthy body in the request, an unknown
    id is answered 404 and a known one 400, and in both cases the lookup is
    the only call made and the table is unchanged. *)
Theorem validation_before_mutation
  (e : env) (i : Z) (data : json) (t : gmap Z row) :
  (lacks "body" data = true ∨ lacks "username" data = true →
   create_message strftime e data (idle t) = (Ok bad_request_response, idle t))
  ∧ (query_fault e = None → lacks "body" data = true →
     update_message strftime e i data (idle t)
     = (Ok (match t !! i with
            | Some _ => bad_request_response
            | None => not_found_response
            end),
        mkSession t [] [CallQueryGet i])).
Proof.
  split.
  - apply create_message_lacking.
  - intros Hq Hl. destruct (t !! i) as [r|] eqn:Hi.
    + by eapply update_message_lacking.
    + by apply update_message_unknown.
Qed.

(** C8. POST /messages with a dict body where 'body' or 'username' is
    missing, or is the empty string, is answered 400 with the error object,
    and the session, table included, is exactly as it was. *)
Theorem post_missing_or_empty_is_rejected
  (e : env) (fields : list (string * json)) (t : gmap Z row) :
  assoc "body" fields = None ∨ assoc "username" fields = None
  ∨ assoc "body" fields = Some (JStr "")
  ∨ assoc "username" fields = Some (JStr "") →
  create_message strftime e (JObj fields) (idle t)
  = (Ok (make_response (JObj [("error", JStr "Bad Request")]) 400), idle t).
Proof.
  intros H. apply create_message_lacking.
  destruct H as [H|[H|[H|H]]];
    eauto using lacks_missing, lacks_falsy.
Qed.

(** C2, as amended. When the commit of a POST or of a PATCH raises an
    integrity error, the handler rolls back (the table is as before the
    request and nothing is left pending) and answers 400, not 500, with a
    JSON object whose only field is the string 'error'. *)
Theorem integrity_error_is_answered_400
  (e : env) (i : Z) (data b : json) (t : gmap Z row) (msg : string) :
  commit_fault e = Some (IntegrityError msg) →
  field "body" data = Some b → truthy b = true →
  (∀ u, field "username" data = Some u → truthy u = true →
     create_message strftime e data (idle t)
     = (Ok (make_response (JObj [("error", JStr "Bad Request")]) 400),
        mkSession t [] [CallAdd; CallCommit; CallRollback]))
  ∧ (∀ r, query_fault e = None → t !! i = Some r →
       update_message strftime e i data (idle t)
       = (Ok (make_response (JObj [("error", JStr "Bad Request")]) 400),
          mkSession t []
                    [CallQueryGet i; CallAdd; CallCommit; CallRollback])).
Proof.
  intros Hc Hb Tb. split.
  - intros u Hu Tu.
    by rewrite (create_message_commit_raises _ _ _ _ _ _ _ Hb Hu Tb Tu Hc).
  - intros r Hq Hi.
    by rewrite (update_message_commit_raises _ _ _ _ _ _ _ _ Hq Hc Hi Hb Tb).
Qed.
End validation.

(** ** What a request can do to the table *)

Lemma not_lacks_field (k : string) (fields : list (string * json)) :
  lacks k (JObj fields) = false →
  ∃ v, field k (JObj fields) = Some v ∧ truthy v = true.
Proof.
  simpl. intros H%negb_false_iff.
  destruct (assoc k fields) as [v|]; [eauto|done].
Qed.

Section table_effects.
Context (strftime : datetime → string).

Lemma get_messages_table (e : env) (t : gmap Z row) :
  table (get_messages strftime e (idle t)).2 = t.
Proof. run. by destruct (query_fault e). Qed.

(** A POST leaves the table as it was, or with one new row that holds
    what the columns made of two truthy values. *)
Lemma create_message_effect (e : env) (data : json) (t : gmap Z row) :
  table (create_message strftime e data (idle t)).2 = t
  ∨ ∃ b u vb vu, truthy b = true ∧ truthy u = true
                 ∧ as_text b = Some vb ∧ as_text u = Some vu
                 ∧ table (create_message strftime e data (idle t)).2
                   = <[next_id t := created_row e vb vu]> t.
Proof.
  destruct (lacks "body" data) eqn:Lb.
  { left. rewrite create_message_lacking; auto. }
  destruct (lacks "username" data) eqn:Lu.
  { left. rewrite create_message_lacking; auto. }
  destruct data as [|v|n|str|items|fields];
    try (left; unfold lacks in Lb; apply negb_false_iff in Lb;
         simpl in Lb; try done;
         run; rewrite ?Lb; simpl; by repeat case_match).
  destruct (not_lacks_field _ _ Lb) as (b & Hb & Tb).
  destruct (not_lacks_field _ _ Lu) as (u & Hu & Tu).
  destruct (commit_fault e) as [ex|] eqn:Hc.
  { left. by rewrite (create_message_commit_raises _ _ _ _ _ _ _ Hb Hu Tb Tu Hc). }
  destruct (as_text b) as [vb|] eqn:Bb; last first.
  { left. rewrite (create_message_unbound _ _ _ b u); auto. }
  destruct (as_text u) as [vu|] eqn:Bu; last first.
  { left. rewrite (create_message_unbound _ _ _ b u); auto. }
  right. exists b, u, vb, vu. do 4 (split; [done|]).
  destruct (refresh_fault e) as [ex|] eqn:Hr.
  - by rewrite (create_message_reload_raises _ _ _ _ _ _ _ _ _
                  Hb Hu Tb Tu Bb Bu Hc Hr).
  - by rewrite (create_message_stored _ _ _ _ _ _ _ _ Hb Hu Tb Tu Bb Bu Hc Hr).
Qed.

Lemma create_message_table (e : env) (data : json) (t : gmap Z row) :
  table (create_message strftime e data (idle t)).2 = t
  ∨ ∃ b u, truthy b = true ∧ truthy u = true
           ∧ table (create_message strftime e data (idle t)).2
             = <[next_id t := created_row e b u]> t.
Proof.
  destruct (create_message_effect e data t)
    as [->|(b & u & vb & vu & Tb & Tu & Bb & Bu & ->)]; [by left|].
  right. exists vb, vu.
  split; [apply (as_text_truthy _ _ Tb Bb)|].
  split; [apply (as_text_truthy _ _ Tu Bu)|]. done.
Qed.

(** A PATCH leaves the table as it was, or with the row of its id holding
    what the column made of a truthy body, and the time of the request. *)
Lemma update_message_effect (e : env) (i : Z) (data : json) (t : gmap Z row) :
  table (update_message strftime e i data (idle t)).2 = t
  ∨ ∃ r b vb, t !! i = Some r ∧ truthy b = true
              ∧ set_column (row_body r) b = Some vb
              ∧ table (update_message strftime e i data (idle t)).2
                = <[i := patched_row e vb r]> t.
Proof.
  destruct (query_fault e) as [ex|] eqn:Hq.
  { left. run. by rewrite Hq. }
  destruct (t !! i) as [r|] eqn:Hi; last first.
  { left. by rewrite update_message_unknown. }
  destruct (lacks "body" data) eqn:Lb.
  { left. by erewrite update_message_lacking. }
  destruct data as [|v|n|str|items|fields];
    try (left; unfold lacks in Lb; apply negb_false_iff in Lb;
         simpl in Lb; try done;
         run; rewrite Hq; simpl; rewrite Hi; simpl; rewrite ?Lb; simpl;
         by repeat case_match).
  destruct (not_lacks_field _ _ Lb) as (b & Hb & Tb).
  destruct (commit_fault e) as [ex|] eqn:Hc.
  { left. by rewrite (update_message_commit_raises _ _ _ _ _ _ _ _ Hq Hc Hi Hb Tb). }
  destruct (set_column (row_body r) b) as [vb|] eqn:Bb; last first.
  { left. by rewrite (update_message_unbound _ _ _ _ _ _ _ Hq Hc Hi Hb Tb Bb). }
  right. exists r, b, vb. do 3 (split; [done|]).
  destruct (refresh_fault e) as [ex|] eqn:Hr.
  - by rewrite (update_message_reload_raises _ _ _ _ _ _ _ _ _
                  Hq Hc Hr Hi Hb Tb Bb).
  - by rewrite (update_message_stored _ _ _ _ _ _ _ _ Hq Hc Hr Hi Hb Tb Bb).
Qed.

Lemma update_message_table (e : env) (i : Z) (data : json) (t : gmap Z row) :
  table (update_message strftime e i data (idle t)).2 = t
  ∨ ∃ r b, t !! i = Some r ∧ truthy b = true
           ∧ table (update_message strftime e i data (idle t)).2
             = <[i := patched_row e b r]> t.
Proof.
  destruct (update_message_effect e i data t)
    as [->|(r & b & vb & Hi & Tb & Bb & ->)]; [by left|].
  right. exists r, vb. split; [done|].
  split; [apply (set_column_truthy _ _ _ Tb Bb)|]. done.
Qed.
End table_effects.

Lemma delete_message_table (e : env) (i : Z) (t : gmap Z row) :
  table (delete_message e i (idle t)).2 = t
  ∨ table (delete_message e i (idle t)).2 = delete i t.
Proof.
  destruct (query_fault e) as [ex|] eqn:Hq.
  { left. run. by rewrite Hq. }
  destruct (t !! i) as [r|] eqn:Hi; last first.
  { left. by rewrite delete_message_unknown. }
  destruct (commit_fault e) as [ex|] eqn:Hc.
  - left. run. rewrite Hq. simpl. rewrite Hi. simpl. by rewrite Hc.
  - right. by erewrite delete_message_deleted.
Qed.

Lemma non_empty_rows_insert (t : gmap Z row) (i : Z) (r : row) :
  non_empty_rows t →
  truthy (row_body r) = true → truthy (row_username r) = true →
  non_empty_rows (<[i := r]> t).
Proof.
  intros Ht Hb Hu j r'. destruct (decide (i = j)) as [->|Hne].
  - rewrite lookup_insert_eq. by intros [= <-].
  - rewrite lookup_insert_ne by done. apply Ht.
Qed.

Lemma non_empty_rows_delete (t : gmap Z row) (i : Z) :
  non_empty_rows t → non_empty_rows (delete i t).
Proof. intros Ht j r' Hj%lookup_delete_Some. by apply (Ht j), Hj. Qed.

(** ** The invariants of the table *)

Section invariants.
Context (strftime : datetime → string).

(** C4, as amended. The handlers keep every row's body and username truthy
    (non-empty): whatever the request and whatever the persistence layer
    raises, a table with that property still has it afterwards. The store
    itself rejects only null: committing a new object whose body or
    username is None raises and leaves the table as it was, and what it
    raises is an integrity error whenever the driver can bind both values;
    nothing in the schema rejects an empty string. *)
Theorem rows_stay_non_empty_store_rejects_null
  (e : env) (i : Z) (data : json) (t : gmap Z row) (m : Message) :
  (non_empty_rows t →
   non_empty_rows (table (get_messages strftime e (idle t)).2)
   ∧ non_empty_rows (table (create_message strftime e data (idle t)).2)
   ∧ non_empty_rows (table (update_message strftime e i data (idle t)).2)
   ∧ non_empty_rows (table (delete_message e i (idle t)).2))
  ∧ (commit_fault e = None → primary_key m = None →
     body m = JNull ∨ username m = JNull →
     ∃ ex,
       (session_add m;; session_commit e) (idle t)
       = (Raise ex, mkSession t [Insert (columns m)] [CallAdd; CallCommit])
       ∧ (is_Some (as_text (body m)) → is_Some (as_text (username m)) →
          ex = IntegrityError "NOT NULL constraint failed")).
Proof.
  split.
  - intros Ht. split; [|split; [|split]].
    + by rewrite get_messages_table.
    + destruct (create_message_table strftime e data t)
        as [->|(b & u & Tb & Tu & ->)]; [done|].
      by apply non_empty_rows_insert.
    + destruct (update_message_table strftime e i data t)
        as [->|(r & b & Hi & Tb & ->)]; [done|].
      apply non_empty_rows_insert; [done|done|]. by destruct (Ht i r Hi).
    + destruct (delete_message_table e i t) as [->| ->]; [done|].
      by apply non_empty_rows_delete.
  - intros Hc Hk Hnull. destruct m as [k b u c d]. simpl in *. subst k.
    run. rewrite Hc. simpl.
    destruct (as_text b) as [vb|] eqn:Bb; last first.
    { eexists. split; [done|]. by intros [??]. }
    destruct (as_text u) as [vu|] eqn:Bu; last first.
    { eexists. split; [done|]. by intros _ [??]. }
    simpl. rewrite constraints_ok_load.
    assert (not_null vb && not_null vu = false) as ->.
    { destruct Hnull as [-> | ->].
      - by injection Bb as <-.
      - injection Bu as <-. apply andb_false_r. }
    eauto.
Qed.

(** C5. A PATCH with a non-empty text body on an existing id, when the
    persistence layer raises nothing, answers 200 with the updated message;
    afterwards the row under that id has the new body and updated_at equal
    to the time of the request, the username and created_at it had before,
    and every other row of the table is as it was. *)
Theorem patch_changes_body_and_updated_at_only
  (e : env) (i : Z) (data b : json) (t : gmap Z row) (r : row) :
  query_fault e = None → commit_fault e = None → refresh_fault e = None →
  t !! i = Some r → field "body" data = Some b → truthy b = true →
  as_text b = Some b →
  ∃ s',
    update_message strftime e i data (idle t)
    = (Ok (make_response
             (to_dict strftime
                (mkMessage (Some i) b (row_username r) (row_created_at r)
                           (Some (utcnow e)))) 200), s')
    ∧ table s' !! i
      = Some (mkRow b (row_username r) (row_created_at r) (Some (utcnow e)))
    ∧ ∀ j, j ≠ i → table s' !! j = t !! j.
Proof.
  intros Hq Hc Hr Hi Hb Tb Bb.
  rewrite (update_message_updated _ _ _ _ _ _ _ Hq Hc Hr Hi Hb Tb Bb).
  eexists. split; [done|]. simpl. split.
  - by rewrite lookup_insert_eq.
  - intros j Hj. by rewrite lookup_insert_ne.
Qed.

(** C6. Sending the same successful PATCH (a non-empty text body, on a
    persistence layer that raises nothing) twice leaves the table as one
    PATCH does, except for updated_at of the patched row: after the second
    request that row has the same body, username and created_at as after
    the first, its updated_at is the time of the second request (later
    than the first whenever the clock advanced), and all other rows are
    the same. Both requests answer 200. *)
Theorem patch_twice_is_patch_once_but_for_updated_at
  (e1 e2 : env) (i : Z) (data b : json) (t : gmap Z row) (r : row) :
  query_fault e1 = None → commit_fault e1 = None → refresh_fault e1 = None →
  query_fault e2 = None → commit_fault e2 = None → refresh_fault e2 = None →
  t !! i = Some r → field "body" data = Some b → truthy b = true →
  as_text b = Some b →
  ∃ resp1 s1 resp2 s2 r1 r2,
    update_message strftime e1 i data (idle t) = (Ok resp1, s1)
    ∧ update_message strftime e2 i data (idle (table s1)) = (Ok resp2, s2)
    ∧ status resp1 = 200 ∧ status resp2 = 200
    ∧ table s1 !! i = Some r1 ∧ table s2 !! i = Some r2
    ∧ row_body r2 = row_body r1
    ∧ row_username r2 = row_username r1
    ∧ row_created_at r2 = row_created_at r1
    ∧ row_updated_at r1 = Some (utcnow e1)
    ∧ row_updated_at r2 = Some (utcnow e2)
    ∧ (utcnow e1 < utcnow e2 →
       dt_le (row_updated_at r2) (row_updated_at r1) = false)
    ∧ ∀ j, j ≠ i → table s2 !! j = table s1 !! j.
Proof.
  intros Hq1 Hc1 Hr1 Hq2 Hc2 Hr2 Hi Hb Tb Bb.
  rewrite (update_message_updated _ _ _ _ _ _ _ Hq1 Hc1 Hr1 Hi Hb Tb Bb).
  simpl.
  assert (<[i := patched_row e1 b r]> t !! i = Some (patched_row e1 b r))
    as Hi' by apply lookup_insert_eq.
  do 6 eexists. split; [reflexivity|]. simpl. split.
  { by rewrite (update_message_updated _ _ _ _ _ _ _
                  Hq2 Hc2 Hr2 Hi' Hb Tb Bb). }
  simpl. rewrite !lookup_insert_eq. repeat split; try done.
  - intros Hlt. apply Z.leb_gt. lia.
  - intros j Hj. by rewrite lookup_insert_ne.
Qed.
End invariants.

(** ** Creating and deleting *)

Lemma rows_of_insert (t : gmap Z row) (i : Z) (r : row) :
  t !! i = None → rows_of (<[i := r]> t) ≡ₚ load i r :: rows_of t.
Proof.
  intros Hi. unfold rows_of. by rewrite map_to_list_insert.
Qed.

Lemma rows_of_ids_NoDup (t : gmap Z row) : NoDup (id <$> rows_of t).
Proof.
  unfold rows_of. rewrite <-list_fmap_compose.
  assert (id ∘ message_of =@{Z * row → option Z} Some ∘ fst) as -> by done.
  rewrite list_fmap_compose. apply (NoDup_fmap_2 _).
  apply NoDup_fst_map_to_list.
Qed.

Section create_and_delete.
Context (strftime : datetime → string).

(** C7. A POST whose body and username are non-empty text, when the
    persistence layer raises nothing, answers 201 with the created message: the
    request's body and username, an id that no row had, created_at set to
    the time of the request, updated_at null. A GET that follows lists
    exactly the messages that were there plus that one, and no two listed
    messages share an id. *)
Theorem post_then_get_lists_one_new_message
  (e e' : env) (data b u : json) (t : gmap Z row) :
  commit_fault e = None → refresh_fault e = None → query_fault e' = None →
  field "body" data = Some b → field "username" data = Some u →
  truthy b = true → truthy u = true →
  as_text b = Some b → as_text u = Some u →
  ∃ new_id s' s'' listing,
    create_message strftime e data (idle t)
    = (Ok (make_response
             (to_dict strftime
                (mkMessage (Some new_id) b u (Some (utcnow e)) None)) 201),
       s')
    ∧ t !! new_id = None
    ∧ get_messages strftime e' (idle (table s'))
      = (Ok (make_response (JArr (to_dict strftime <$> listing)) 200), s'')
    ∧ listing ≡ₚ mkMessage (Some new_id) b u (Some (utcnow e)) None
                  :: rows_of t
    ∧ NoDup (id <$> listing).
Proof.
  intros Hc Hr Hq Hb Hu Tb Tu Bb Bu.
  rewrite (create_message_created _ _ _ _ _ _ Hb Hu Tb Tu Bb Bu Hc Hr).
  exists (next_id t). do 2 eexists.
  exists (ordered_by_created_at (<[next_id t := created_row e b u]> t)).
  split; [done|]. split; [apply next_id_fresh|]. simpl. split.
  { by apply get_messages_listed. }
  rewrite !ordered_by_created_at_Permutation. split.
  - apply rows_of_insert, next_id_fresh.
  - apply rows_of_ids_NoDup.
Qed.

(** C9. DELETE on an existing id, when the persistence layer raises
    nothing, answers 200 with the message naming the id and removes that
    row and no other; a find-by-id, a PATCH or a DELETE of the same id that
    follows finds nothing and answers 404, the second DELETE leaving the
    table as it is. DELETE on an id that has no row answers 404 and leaves
    the table unchanged. *)
Theorem delete_removes_exactly_that_row
  (e e' : env) (i : Z) (data : json) (t : gmap Z row) :
  query_fault e = None → commit_fault e = None → query_fault e' = None →
  (∀ r, t !! i = Some r →
     ∃ s',
       delete_message e i (idle t)
       = (Ok (make_response
                (JObj [("message",
                        JStr ("Message with id " +:+ pretty i
                              +:+ " successfully deleted"))]) 200), s')
       ∧ table s' !! i = None
       ∧ (∀ j, j ≠ i → table s' !! j = t !! j)
       ∧ (query_get e' i (idle (table s'))).1 = Ok None
       ∧ update_message strftime e' i data (idle (table s'))
         = (Ok (make_response (JObj [("error", JStr "Resource not found")])
                  404),
            mkSession (table s') [] [CallQueryGet i])
       ∧ delete_message e' i (idle (table s'))
         = (Ok (make_response (JObj [("error", JStr "Resource not found")])
                  404),
            mkSession (table s') [] [CallQueryGet i]))
  ∧ (t !! i = None →
     delete_message e i (idle t)
     = (Ok (make_response (JObj [("error", JStr "Resource not found")]) 404),
        mkSession t [] [CallQueryGet i])).
Proof.
  intros Hq Hc Hq'. split.
  - intros r Hi. rewrite (delete_message_deleted _ _ _ _ Hq Hc Hi).
    eexists. split; [done|]. simpl.
    assert (delete i t !! i = None) as Hgone by apply lookup_delete_eq.
    split; [done|]. split.
    { intros j Hj. by rewrite lookup_delete_ne. }
    split.
    { run. rewrite Hq'. simpl. by rewrite Hgone. }
    split.
    + by rewrite update_message_unknown.
    + by rewrite delete_message_unknown.
  - intros Hi. by rewrite delete_message_unknown.
Qed.

End create_and_delete.

(** ** The theorems at work on concrete requests *)

(** PATCH /messages/7 with an empty dict, on an empty table: the route
    looks the id up before it looks at the body, and answers 404. *)
Lemma patch_unknown_id_empty_body_is_404 :
  update_message pretty (quiet 200) 7 (JObj []) (idle ∅)
  = (Ok (make_response (JObj [("error", JStr "Resource not found")]) 404),
     mkSession ∅ [] [CallQueryGet 7])
  ∧ ¬ ∃ resp s',
        update_message pretty (quiet 200) 7 (JObj []) (idle ∅) = (Ok resp, s')
        ∧ status resp = 400 ∧ calls s' = [].
Proof.
  split; [reflexivity|].
  intros (resp & s' & Hrun & Hstatus & _).
  vm_compute in Hrun. injection Hrun as <- _. discriminate Hstatus.
Qed.

(** POST of a valid message when the commit raises an integrity error: the
    answer is 400. *)
Lemma post_integrity_error_is_not_500 :
  create_message pretty
    (mkEnv 200 None (Some (IntegrityError "UNIQUE constraint failed")) None)
    hi_from_ana (idle ∅)
  = (Ok (make_response (JObj [("error", JStr "Bad Request")]) 400),
     mkSession ∅ [] [CallAdd; CallCommit; CallRollback])
  ∧ ¬ ∃ resp s',
        create_message pretty
          (mkEnv 200 None (Some (IntegrityError "UNIQUE constraint failed")) None)
          hi_from_ana (idle ∅) = (Ok resp, s')
        ∧ status resp = 500.
Proof.
  split; [reflexivity|].
  intros (resp & s' & Hrun & Hstatus).
  vm_compute in Hrun. injection Hrun as <- _. discriminate Hstatus.
Qed.

(** Committing a message with empty strings, without going through a
    route: the store takes it, and the table has a row with an empty body
    and an empty username. *)
Lemma store_accepts_empty_strings :
  (session_add (mkMessage None (JStr "") (JStr "") None None);;
   session_commit (quiet 200)) (idle ∅)
  = (Ok [mkMessage (Some 1) (JStr "") (JStr "") (Some 200) None],
     mkSession {[1 := mkRow (JStr "") (JStr "") (Some 200) None]} []
               [CallAdd; CallCommit])
  ∧ ¬ non_empty_rows {[1 := mkRow (JStr "") (JStr "") (Some 200) None]}.
Proof.
  split; [reflexivity|].
  intros H. by destruct (H 1 _ (lookup_singleton_eq _ _)).
Qed.


Lemma get_messages_lists_all_sorted_witness :
  query_fault (quiet 200) = None
  ∧ ∃ messages,
      get_messages pretty (quiet 200) (idle one_message)
      = (Ok (make_response (JArr (to_dict pretty <$> messages)) 200),
         mkSession one_message [] [CallQueryAll])
      ∧ messages ≡ₚ rows_of one_message
      ∧ StronglySorted listed_before messages
      ∧ (one_message = ∅ → messages = []).
Proof.
  split; [reflexivity|].
  apply (get_messages_lists_all_sorted pretty (quiet 200) one_message).
  reflexivity.
Defined.

Lemma validation_before_mutation_witness :
  create_message pretty (quiet 200) (JObj [("username", JStr "bob")]) (idle ∅)
  = (Ok bad_request_response, idle ∅)
  ∧ update_message pretty (quiet 200) 1 (JObj [("body", JStr "")])
      (idle one_message)
    = (Ok bad_request_response, mkSession one_message [] [CallQueryGet 1]).
Proof.
  split.
  - apply (validation_before_mutation pretty (quiet 200) 1
             (JObj [("username", JStr "bob")]) ∅).
    left. reflexivity.
  - apply (validation_before_mutation pretty (quiet 200) 1
             (JObj [("body", JStr "")]) one_message); reflexivity.
Defined.

Lemma post_missing_or_empty_is_rejected_witness :
  create_message pretty (quiet 200)
    (JObj [("body", JStr ""); ("username", JStr "x")]) (idle one_message)
  = (Ok (make_response (JObj [("error", JStr "Bad Request")]) 400),
     idle one_message).
Proof.
  apply (post_missing_or_empty_is_rejected pretty (quiet 200)
           [("body", JStr ""); ("username", JStr "x")] one_message).
  right. right. left. reflexivity.
Defined.

Lemma integrity_error_is_answered_400_witness :
  create_message pretty (mkEnv 200 None (Some (IntegrityError "constraint")) None)
    hi_from_ana (idle one_message)
  = (Ok (make_response (JObj [("error", JStr "Bad Request")]) 400),
     mkSession one_message [] [CallAdd; CallCommit; CallRollback])
  ∧ update_message pretty
      (mkEnv 200 None (Some (IntegrityError "constraint")) None)
      1 hi_from_ana (idle one_message)
    = (Ok (make_response (JObj [("error", JStr "Bad Request")]) 400),
       mkSession one_message []
                 [CallQueryGet 1; CallAdd; CallCommit; CallRollback]).
Proof.
  destruct (integrity_error_is_answered_400 pretty
              (mkEnv 200 None (Some (IntegrityError "constraint")) None)
              1 hi_from_ana (JStr "hi") one_message "constraint"
              eq_refl eq_refl eq_refl) as [Hpost Hpatch].
  split.
  - apply (Hpost (JStr "ana")); reflexivity.
  - apply (Hpatch (mkRow (JStr "hi") (JStr "ana") (Some 100) None));
      reflexivity.
Defined.

Lemma one_message_non_empty : non_empty_rows one_message.
Proof.
  unfold one_message. intros i r [<- <-]%lookup_singleton_Some. by split.
Qed.

Lemma rows_stay_non_empty_store_rejects_null_witness :
  (non_empty_rows (table (get_messages pretty (quiet 200) (idle one_message)).2)
   ∧ non_empty_rows
       (table (create_message pretty (quiet 200) hi_from_ana
                 (idle one_message)).2)
   ∧ non_empty_rows
       (table (update_message pretty (quiet 200) 1 hi_from_ana
                 (idle one_message)).2)
   ∧ non_empty_rows (table (delete_message (quiet 200) 1 (idle one_message)).2))
  ∧ (session_add (mkMessage None JNull (JStr "ana") None None);;
     session_commit (quiet 200)) (idle one_message)
    = (Raise (IntegrityError "NOT NULL constraint failed"),
       mkSession one_message
         [Insert (columns (mkMessage None JNull (JStr "ana") None None))]
         [CallAdd; CallCommit]).
Proof.
  destruct (rows_stay_non_empty_store_rejects_null pretty (quiet 200) 1
              hi_from_ana one_message
              (mkMessage None JNull (JStr "ana") None None)) as [Hinv Hnull].
  split.
  - apply Hinv, one_message_non_empty.
  - destruct (Hnull eq_refl eq_refl (or_introl eq_refl)) as (ex & Hrun & Hex).
    rewrite Hrun, Hex; [reflexivity|eexists; reflexivity..].
Defined.

Lemma patch_changes_body_and_updated_at_only_witness :
  ∃ s',
    update_message pretty (quiet 200) 1 hi_there (idle one_message)
    = (Ok (make_response
             (to_dict pretty
                (mkMessage (Some 1) (JStr "hi there") (JStr "ana") (Some 100)
                           (Some 200))) 200), s')
    ∧ table s' !! 1
      = Some (mkRow (JStr "hi there") (JStr "ana") (Some 100) (Some 200))
    ∧ ∀ j, j ≠ 1 → table s' !! j = one_message !! j.
Proof.
  apply (patch_changes_body_and_updated_at_only pretty (quiet 200) 1 hi_there
           (JStr "hi there") one_message
           (mkRow (JStr "hi") (JStr "ana") (Some 100) None));
    reflexivity.
Defined.

Lemma patch_twice_is_patch_once_but_for_updated_at_witness :
  ∃ resp1 s1 resp2 s2 r1 r2,
    update_message pretty (quiet 200) 1 hi_there (idle one_message)
    = (Ok resp1, s1)
    ∧ update_message pretty (quiet 300) 1 hi_there (idle (table s1))
      = (Ok resp2, s2)
    ∧ status resp1 = 200 ∧ status resp2 = 200
    ∧ table s1 !! 1 = Some r1 ∧ table s2 !! 1 = Some r2
    ∧ row_body r2 = row_body r1
    ∧ row_username r2 = row_username r1
    ∧ row_created_at r2 = row_created_at r1
    ∧ row_updated_at r1 = Some 200
    ∧ row_updated_at r2 = Some 300
    ∧ (200 < 300 → dt_le (row_updated_at r2) (row_updated_at r1) = false)
    ∧ ∀ j, j ≠ 1 → table s2 !! j = table s1 !! j.
Proof.
  apply (patch_twice_is_patch_once_but_for_updated_at pretty
           (quiet 200) (quiet 300) 1 hi_there (JStr "hi there") one_message
           (mkRow (JStr "hi") (JStr "ana") (Some 100) None));
    reflexivity.
Defined.

Lemma post_then_get_lists_one_new_message_witness :
  ∃ new_id s' s'' listing,
    create_message pretty (quiet 200) hi_from_ana (idle one_message)
    = (Ok (make_response
             (to_dict pretty
                (mkMessage (Some new_id) (JStr "hi") (JStr "ana") (Some 200)
                           None)) 201), s')
    ∧ one_message !! new_id = None
    ∧ get_messages pretty (quiet 300) (idle (table s'))
      = (Ok (make_response (JArr (to_dict pretty <$> listing)) 200), s'')
    ∧ listing ≡ₚ mkMessage (Some new_id) (JStr "hi") (JStr "ana") (Some 200)
                           None :: rows_of one_message
    ∧ NoDup (id <$> listing).
Proof.
  apply (post_then_get_lists_one_new_message pretty (quiet 200) (quiet 300)
           hi_from_ana (JStr "hi") (JStr "ana") one_message);
    reflexivity.
Defined.

Lemma delete_removes_exactly_that_row_witness :
  (∃ s',
     delete_message (quiet 200) 1 (idle one_message)
     = (Ok (make_response
              (JObj [("message",
                      JStr "Message with id 1 successfully deleted")]) 200),
        s')
     ∧ table s' !! 1 = None
     ∧ update_message pretty (quiet 300) 1 hi_there (idle (table s'))
       = (Ok (make_response (JObj [("error", JStr "Resource not found")])
                404),
          mkSession (table s') [] [CallQueryGet 1])
     ∧ delete_message (quiet 300) 1 (idle (table s'))
       = (Ok (make_response (JObj [("error", JStr "Resource not found")])
                404),
          mkSession (table s') [] [CallQueryGet 1]))
  ∧ delete_message (quiet 200) 999999 (idle one_message)
    = (Ok (make_response (JObj [("error", JStr "Resource not found")]) 404),
       mkSession one_message [] [CallQueryGet 999999]).
Proof.
  split.
  - destruct (delete_removes_exactly_that_row pretty (quiet 200) (quiet 300)
                1 hi_there one_message eq_refl eq_refl eq_refl)
      as [Hthere _].
    destruct (Hthere (mkRow (JStr "hi") (JStr "ana") (Some 100) None) eq_refl)
      as (s' & Hrun & Hgone & _ & _ & Hpatch & Hdelete).
    exists s'. auto.
  - apply (delete_removes_exactly_that_row pretty (quiet 200) (quiet 300)
             999999 hi_there one_message); reflexivity.
Defined.


(** * Further properties of the routes *)

(** ** Every way a request can end *)

Lemma existsb_is_str (k : string) (items : list json) :
  existsb (is_str k) items = true ↔ JStr k ∈ items.
Proof.
  rewrite existsb_exists. split.
  - intros (v & Hin%list_elem_of_In & Hv). destruct v; try done.
    simpl in Hv. apply String.eqb_eq in Hv. by subst.
  - intros Hin. exists (JStr k). split; [by apply list_elem_of_In|].
    simpl. apply String.eqb_refl.
Qed.

Section outcomes.
Context (strftime : datetime → string).

Lemma get_messages_failed (e : env) (t : gmap Z row) (ex : exn) :
  query_fault e = Some ex →
  get_messages strftime e (idle t)
  = (Ok internal_error_response, mkSession t [] [CallQueryAll; CallRollback]).
Proof. intros Hq. run. by rewrite Hq. Qed.

Lemma create_message_not_a_dict (e : env) (data : json) (s : session) :
  truthy data = true → (∀ fields, data ≠ JObj fields) →
  create_message strftime e data s
  = (match py_all_in ["body"; "username"] data with
     | Ok true => Raise AttributeError
     | Ok false => Ok bad_request_response
     | Raise ex => Raise ex
     end, s).
Proof.
  intros Ht Hnd. destruct data as [|v|n|str|items|fields];
    try done; try (by destruct (Hnd fields));
    run; simpl in Ht; rewrite ?Ht; simpl; by repeat case_match.
Qed.

Lemma create_message_cases (e : env) (data : json) (t : gmap Z row) :
  create_message strftime e data (idle t) = (Ok bad_request_response, idle t)
  ∨ (∃ ex, (ex = TypeError ∨ ex = AttributeError)
           ∧ create_message strftime e data (idle t) = (Raise ex, idle t))
  ∨ (∃ b u, truthy b = true ∧ truthy u = true
            ∧ create_message strftime e data (idle t)
              = (Ok (make_response
                       (to_dict strftime
                          (load (next_id t) (created_row e b u))) 201),
                 mkSession (<[next_id t := created_row e b u]> t) []
                           [CallAdd; CallCommit]))
  ∨ (∃ ex, create_message strftime e data (idle t)
           = (Ok (commit_error_response ex),
              mkSession t [] [CallAdd; CallCommit; CallRollback]))
  ∨ (∃ b u ex, truthy b = true ∧ truthy u = true
               ∧ refresh_fault e = Some ex
               ∧ create_message strftime e data (idle t)
                 = (Ok (commit_error_response ex),
                    mkSession (<[next_id t := created_row e b u]> t) []
                              [CallAdd; CallCommit; CallRollback])).
Proof.
  destruct (lacks "body" data) eqn:Lb.
  { left. rewrite create_message_lacking; auto. }
  destruct (lacks "username" data) eqn:Lu.
  { left. rewrite create_message_lacking; auto. }
  destruct data as [|v|n|str|items|fields];
    try (unfold lacks in Lb; apply negb_false_iff in Lb;
         rewrite create_message_not_a_dict by done;
         destruct (py_all_in _ _) as [[]|ex] eqn:Hall; [| |];
         [right; left; eauto | by left |];
         right; left; exists ex; split; [|done];
         simpl in Hall; repeat case_match; simplify_eq; auto).
  destruct (not_lacks_field _ _ Lb) as (b & Hb & Tb).
  destruct (not_lacks_field _ _ Lu) as (u & Hu & Tu).
  destruct (commit_fault e) as [ex|] eqn:Hc.
  { do 3 right. left. exists ex.
    by rewrite (create_message_commit_raises _ _ _ _ _ _ _ Hb Hu Tb Tu Hc). }
  destruct (as_text b) as [vb|] eqn:Bb; last first.
  { do 3 right. left. exists (DatabaseError "Error binding parameter").
    rewrite (create_message_unbound _ _ _ b u); auto. }
  destruct (as_text u) as [vu|] eqn:Bu; last first.
  { do 3 right. left. exists (DatabaseError "Error binding parameter").
    rewrite (create_message_unbound _ _ _ b u); auto. }
  pose proof (as_text_truthy _ _ Tb Bb) as Tvb.
  pose proof (as_text_truthy _ _ Tu Bu) as Tvu.
  destruct (refresh_fault e) as [ex|] eqn:Hr.
  - do 4 right. exists vb, vu, ex. do 3 (split; [done|]).
    by rewrite (create_message_reload_raises _ _ _ _ _ _ _ _ _
                  Hb Hu Tb Tu Bb Bu Hc Hr).
  - do 2 right. left. exists vb, vu. split; [done|]. split; [done|].
    by rewrite (create_message_stored _ _ _ _ _ _ _ _ Hb Hu Tb Tu Bb Bu Hc Hr).
Qed.
Lemma update_message_lookup_raises
  (e : env) (i : Z) (data : json) (t : gmap Z row) (ex : exn) :
  query_fault e = Some ex →
  update_message strftime e i data (idle t)
  = (Raise ex, mkSession t [] [CallQueryGet i]).
Proof. intros Hq. run. by rewrite Hq. Qed.

Lemma update_message_not_a_dict
  (e : env) (i : Z) (data : json) (t : gmap Z row) (r : row) :
  query_fault e = None → t !! i = Some r →
  truthy data = true → (∀ fields, data ≠ JObj fields) →
  update_message strftime e i data (idle t)
  = (match py_in "body" data with
     | Ok true => Raise AttributeError
     | Ok false => Ok bad_request_response
     | Raise ex => Raise ex
     end, mkSession t [] [CallQueryGet i]).
Proof.
  intros Hq Hi Ht Hnd. destruct data as [|v|n|str|items|fields];
    try done; try (by destruct (Hnd fields));
    run; rewrite Hq; simpl; rewrite Hi; simpl;
    simpl in Ht; rewrite ?Ht; simpl; by repeat case_match.
Qed.

Lemma update_message_cases (e : env) (i : Z) (data : json) (t : gmap Z row) :
  (∃ ex, update_message strftime e i data (idle t)
         = (Raise ex, mkSession t [] [CallQueryGet i]))
  ∨ (∃ resp, (resp = not_found_response ∨ resp = bad_request_response)
             ∧ update_message strftime e i data (idle t)
               = (Ok resp, mkSession t [] [CallQueryGet i]))
  ∨ (∃ r b, t !! i = Some r ∧ truthy b = true
            ∧ update_message strftime e i data (idle t)
              = (Ok (make_response
                       (to_dict strftime (load i (patched_row e b r))) 200),
                 mkSession (<[i := patched_row e b r]> t) []
                           [CallQueryGet i; CallAdd; CallCommit]))
  ∨ (∃ ex, update_message strftime e i data (idle t)
           = (Ok (commit_error_response ex),
              mkSession t []
                        [CallQueryGet i; CallAdd; CallCommit; CallRollback]))
  ∨ (∃ r b ex, t !! i = Some r ∧ truthy b = true
               ∧ refresh_fault e = Some ex
               ∧ update_message strftime e i data (idle t)
                 = (Ok (commit_error_response ex),
                    mkSession (<[i := patched_row e b r]> t) []
                      [CallQueryGet i; CallAdd; CallCommit; CallRollback])).
Proof.
  destruct (query_fault e) as [ex|] eqn:Hq.
  { left. exists ex. by apply update_message_lookup_raises. }
  destruct (t !! i) as [r|] eqn:Hi; last first.
  { right. left. exists not_found_response. split; [by left|].
    by apply update_message_unknown. }
  destruct (lacks "body" data) eqn:Lb.
  { right. left. exists bad_request_response. split; [by right|].
    by apply (update_message_lacking _ _ _ _ _ r). }
  destruct data as [|v|n|str|items|fields];
    try (unfold lacks in Lb; apply negb_false_iff in Lb;
         rewrite (update_message_not_a_dict _ _ _ _ _ Hq Hi) by done;
         destruct (py_in _ _) as [[]|ex] eqn:Hin;
         [left; eauto | right; left; eauto | left; eauto]).
  destruct (not_lacks_field _ _ Lb) as (b & Hb & Tb).
  destruct (commit_fault e) as [ex|] eqn:Hc.
  { do 3 right. left. exists ex.
    by rewrite (update_message_commit_raises _ _ _ _ _ _ _ _ Hq Hc Hi Hb Tb). }
  destruct (set_column (row_body r) b) as [vb|] eqn:Bb; last first.
  { do 3 right. left. exists (DatabaseError "Error binding parameter").
    by rewrite (update_message_unbound _ _ _ _ _ _ _ Hq Hc Hi Hb Tb Bb). }
  pose proof (set_column_truthy _ _ _ Tb Bb) as Tvb.
  destruct (refresh_fault e) as [ex|] eqn:Hr.
  - do 4 right. exists r, vb, ex. do 3 (split; [done|]).
    by rewrite (update_message_reload_raises _ _ _ _ _ _ _ _ _
                  Hq Hc Hr Hi Hb Tb Bb).
  - do 2 right. left. exists r, vb. split; [done|]. split; [done|].
    by rewrite (update_message_stored _ _ _ _ _ _ _ _ Hq Hc Hr Hi Hb Tb Bb).
Qed.
End outcomes.

Lemma delete_message_lookup_raises (e : env) (i : Z) (t : gmap Z row) (ex : exn) :
  query_fault e = Some ex →
  delete_message e i (idle t) = (Raise ex, mkSession t [] [CallQueryGet i]).
Proof. intros Hq. run. by rewrite Hq. Qed.

Lemma delete_message_commit_raises
  (e : env) (i : Z) (t : gmap Z row) (r : row) (ex : exn) :
  query_fault e = None → commit_fault e = Some ex → t !! i = Some r →
  delete_message e i (idle t)
  = (Ok internal_error_response,
     mkSession t [] [CallQueryGet i; CallDelete; CallCommit; CallRollback]).
Proof.
  intros Hq Hc Hi. run. rewrite Hq. simpl. rewrite Hi. simpl. by rewrite Hc.
Qed.

Lemma delete_message_cases (e : env) (i : Z) (t : gmap Z row) :
  (∃ ex, delete_message e i (idle t)
         = (Raise ex, mkSession t [] [CallQueryGet i]))
  ∨ delete_message e i (idle t)
    = (Ok not_found_response, mkSession t [] [CallQueryGet i])
  ∨ (∃ r, t !! i = Some r
          ∧ delete_message e i (idle t)
            = (Ok (make_response (deleted_body i) 200),
               mkSession (delete i t) []
                         [CallQueryGet i; CallDelete; CallCommit]))
  ∨ delete_message e i (idle t)
    = (Ok internal_error_response,
       mkSession t [] [CallQueryGet i; CallDelete; CallCommit; CallRollback]).
Proof.
  destruct (query_fault e) as [ex|] eqn:Hq.
  { left. exists ex. by apply delete_message_lookup_raises. }
  destruct (t !! i) as [r|] eqn:Hi; last first.
  { right. left. by apply delete_message_unknown. }
  destruct (commit_fault e) as [ex|] eqn:Hc.
  - do 3 right. by eapply delete_message_commit_raises.
  - do 2 right. left. exists r. split; [done|].
    by apply (delete_message_deleted _ _ _ r).
Qed.

(** ** What the routes answer, and what they leave behind *)

Section answers.
Context (strftime : datetime → string).

(** X1. Whatever the request, the table and the failures of the
    persistence layer, a route that answers gives its success status or one
    of three fixed error objects: GET 200 or the 500 object; POST 201, the
    400 object or the 500 object, never 404; PATCH 200 or one of the three;
    DELETE its 200 message, the 404 object or the 500 object, never 400.
    The text a route passes to an error handler is never in the answer. *)
Theorem routes_answer_in_fixed_shapes
  (e : env) (i : Z) (data : json) (t : gmap Z row) :
  answer_is (λ resp, status resp = 200 ∨ resp = internal_error_response)
    (get_messages strftime e (idle t))
  ∧ answer_is (λ resp, status resp = 201 ∨ resp = bad_request_response
                       ∨ resp = internal_error_response)
      (create_message strftime e data (idle t))
  ∧ answer_is (λ resp, status resp = 200 ∨ resp = not_found_response
                       ∨ resp = bad_request_response
                       ∨ resp = internal_error_response)
      (update_message strftime e i data (idle t))
  ∧ answer_is (λ resp, resp = make_response (deleted_body i) 200
                       ∨ resp = not_found_response
                       ∨ resp = internal_error_response)
      (delete_message e i (idle t)).
Proof.
  unfold answer_is. split; [|split; [|split]].
  - destruct (query_fault e) as [ex|] eqn:Hq.
    + rewrite (get_messages_failed _ _ _ _ Hq). by right.
    + rewrite (get_messages_listed _ _ _ Hq). by left.
  - destruct (create_message_cases strftime e data t)
      as [->|[(ex & _ & ->)|[(b & u & _ & _ & ->)
          |[(ex & ->)|(b & u & ex & _ & _ & _ & ->)]]]];
      simpl; auto; destruct ex; auto.
  - destruct (update_message_cases strftime e i data t)
      as [(ex & ->)|[(r0 & Hr & ->)|[(r & b & _ & _ & ->)
          |[(ex & ->)|(r & b & ex & _ & _ & _ & ->)]]]];
      simpl; auto; [destruct Hr as [-> | ->]; auto|..]; destruct ex; auto.
  - destruct (delete_message_cases e i t)
      as [(ex & ->)|[->|[(r & _ & ->)| ->]]];
      simpl; auto.
Qed.

(** X2. No route, however it ends, leaves a change pending in the
    session. A GET or a DELETE that does not answer 200 leaves the table
    exactly as it was; so does a POST or a PATCH that does not answer 201
    or 200 (an error answer, or an exception that escapes the route), as
    long as the reading of the object that follows the commit does not
    raise. *)
Theorem unsuccessful_requests_change_nothing
  (e : env) (i : Z) (data : json) (t : gmap Z row) :
  harmless_unless_success t (get_messages strftime e (idle t))
  ∧ harmless_unless_success t (delete_message e i (idle t))
  ∧ pending (create_message strftime e data (idle t)).2 = []
  ∧ pending (update_message strftime e i data (idle t)).2 = []
  ∧ (refresh_fault e = None →
     harmless_unless_success t (create_message strftime e data (idle t))
     ∧ harmless_unless_success t (update_message strftime e i data (idle t))).
Proof.
  unfold harmless_unless_success. split; [|split].
  - destruct (query_fault e) as [ex|] eqn:Hq.
    + by rewrite (get_messages_failed _ _ _ _ Hq).
    + by rewrite (get_messages_listed _ _ _ Hq).
  - destruct (delete_message_cases e i t)
      as [(ex & ->)|[->|[(r & _ & ->)| ->]]]; done.
  - destruct (create_message_cases strftime e data t)
      as [->|[(ex & _ & ->)|[(b & u & _ & _ & ->)
          |[(ex & ->)|(b & u & ex & _ & _ & Hex & ->)]]]];
      destruct (update_message_cases strftime e i data t)
        as [(ex' & ->)|[(r0 & Hr & ->)|[(r & b' & _ & _ & ->)
            |[(ex' & ->)|(r & b' & ex' & _ & _ & Hex' & ->)]]]];
      simpl; repeat split; try done; intros Hnone; congruence.
Qed.
End answers.

(** ** Bodies that are not dicts, and failures of the persistence layer *)

Lemma py_all_in_list (items : list json) :
  py_all_in ["body"; "username"] (JArr items)
  = Ok (existsb (is_str "body") items && existsb (is_str "username") items).
Proof.
  simpl. destruct (existsb (is_str "body") items); [|done].
  by destruct (existsb (is_str "username") items).
Qed.

Section edge_cases.
Context (strftime : datetime → string).

(** X3. POST /messages checks the body with [in] and [.get] outside any
    try block, so a truthy body that is not a dict is not always turned
    down with 400: a non-zero number or [true] makes the route raise
    TypeError, a list that has both strings 'body' and 'username' among its
    items makes it raise AttributeError, and only a list that lacks one of
    them is answered 400. In every case the session is untouched. *)
Theorem post_body_that_is_not_a_dict
  (e : env) (n : Z) (items : list json) (t : gmap Z row) :
  (n ≠ 0 →
   create_message strftime e (JNum n) (idle t) = (Raise TypeError, idle t))
  ∧ create_message strftime e (JBool true) (idle t)
    = (Raise TypeError, idle t)
  ∧ (JStr "body" ∈ items → JStr "username" ∈ items →
     create_message strftime e (JArr items) (idle t)
     = (Raise AttributeError, idle t))
  ∧ (JStr "body" ∉ items ∨ JStr "username" ∉ items →
     create_message strftime e (JArr items) (idle t)
     = (Ok bad_request_response, idle t)).
Proof.
  split; [|split; [|split]].
  - intros Hn. rewrite create_message_not_a_dict; [done| |done].
    simpl. by apply negb_true_iff, Z.eqb_neq.
  - by rewrite create_message_not_a_dict.
  - intros Hb Hu. rewrite create_message_not_a_dict; [| |done].
    + apply existsb_is_str in Hb, Hu. by rewrite py_all_in_list, Hb, Hu.
    + by destruct items; [inv Hb|].
  - intros H. destruct items as [|v items].
    { by apply create_message_lacking; left. }
    rewrite create_message_not_a_dict; [|done..].
    rewrite py_all_in_list.
    destruct (existsb (is_str "body") (v :: items)) eqn:Hb; [|done].
    destruct (existsb (is_str "username") (v :: items)) eqn:Hu; [|done].
    apply existsb_is_str in Hb, Hu. by destruct H.
Qed.

(** X4. PATCH /messages/{id} on an existing id behaves the same way: a
    non-zero number or [true] as body of the request raises TypeError, a
    list with the string 'body' among its items raises AttributeError, a
    list without it is answered 400; the lookup is the only call made and
    the table is unchanged. *)
Theorem patch_body_that_is_not_a_dict
  (e : env) (i n : Z) (items : list json) (t : gmap Z row) (r : row) :
  query_fault e = None → t !! i = Some r →
  (n ≠ 0 →
   update_message strftime e i (JNum n) (idle t)
   = (Raise TypeError, mkSession t [] [CallQueryGet i]))
  ∧ update_message strftime e i (JBool true) (idle t)
    = (Raise TypeError, mkSession t [] [CallQueryGet i])
  ∧ (JStr "body" ∈ items →
     update_message strftime e i (JArr items) (idle t)
     = (Raise AttributeError, mkSession t [] [CallQueryGet i]))
  ∧ (JStr "body" ∉ items →
     update_message strftime e i (JArr items) (idle t)
     = (Ok bad_request_response, mkSession t [] [CallQueryGet i])).
Proof.
  intros Hq Hi. split; [|split; [|split]].
  - intros Hn. rewrite (update_message_not_a_dict _ _ _ _ _ r); try done.
    simpl. by apply negb_true_iff, Z.eqb_neq.
  - by rewrite (update_message_not_a_dict _ _ _ _ _ r).
  - intros Hb. rewrite (update_message_not_a_dict _ _ _ _ _ r); try done.
    + simpl. apply existsb_is_str in Hb. by rewrite Hb.
    + by destruct items; [inv Hb|].
  - intros Hb. destruct items as [|v items].
    { by apply (update_message_lacking _ _ _ _ _ r). }
    rewrite (update_message_not_a_dict _ _ _ _ _ r); try done.
    unfold py_in.
    destruct (existsb (is_str "body") (v :: items)) eqn:Hb'; [|done].
    by apply existsb_is_str in Hb'.
Qed.

(** X5. When the query of GET /messages raises, the route catches it: it
    rolls back and answers with the 500 object. PATCH and DELETE look the
    id up outside their try block: when that lookup raises, the exception
    escapes the route, with no rollback and no answer. *)
Theorem a_failing_query_is_caught_by_get_only
  (e : env) (i : Z) (data : json) (t : gmap Z row) (ex : exn) :
  query_fault e = Some ex →
  get_messages strftime e (idle t)
  = (Ok (make_response (JObj [("error", JStr "Internal Server Error")]) 500),
     mkSession t [] [CallQueryAll; CallRollback])
  ∧ update_message strftime e i data (idle t)
    = (Raise ex, mkSession t [] [CallQueryGet i])
  ∧ delete_message e i (idle t)
    = (Raise ex, mkSession t [] [CallQueryGet i]).
Proof.
  intros Hq. split; [|split].
  - by rewrite (get_messages_failed _ _ _ _ Hq).
  - by apply update_message_lookup_raises.
  - by apply delete_message_lookup_raises.
Qed.


End edge_cases.

(** ** What a request can and cannot change *)

Section frame.
Context (strftime : datetime → string).

(** X7. A request changes no row but its own, however it ends: after GET
    the table is the same; after POST every row that was there is there
    unchanged; after PATCH or DELETE of id i every row with another id is
    as it was. *)
Theorem a_request_touches_one_row_at_most
  (e : env) (i : Z) (data : json) (t : gmap Z row) :
  table (get_messages strftime e (idle t)).2 = t
  ∧ (∀ j r, t !! j = Some r →
            table (create_message strftime e data (idle t)).2 !! j = Some r)
  ∧ (∀ j, j ≠ i →
          table (update_message strftime e i data (idle t)).2 !! j = t !! j)
  ∧ (∀ j, j ≠ i → table (delete_message e i (idle t)).2 !! j = t !! j).
Proof.
  split; [apply get_messages_table|]. split; [|split].
  - intros j r Hj.
    destruct (create_message_table strftime e data t)
      as [->|(b & u & _ & _ & ->)]; [done|].
    rewrite lookup_insert_ne; [done|]. intros Heq.
    rewrite <-Heq, next_id_fresh in Hj. done.
  - intros j Hj.
    destruct (update_message_table strftime e i data t)
      as [->|(r & b & _ & _ & ->)]; [done|]. by rewrite lookup_insert_ne.
  - intros j Hj.
    destruct (delete_message_table e i t) as [->| ->]; [done|].
    by rewrite lookup_delete_ne.
Qed.

(** X8. No route ever changes the username or the created_at of a row:
    a row that is in the table before and after a request, whatever the
    request and however it ends, has the username and created_at it had.
    Only PATCH can change a body or an updated_at. *)
Theorem username_and_created_at_never_change
  (e : env) (i : Z) (data : json) (t : gmap Z row) :
  keeps_author_and_creation t
    (table (update_message strftime e i data (idle t)).2)
  ∧ ∀ j r r', t !! j = Some r →
      (table (get_messages strftime e (idle t)).2 !! j = Some r' → r' = r)
      ∧ (table (create_message strftime e data (idle t)).2 !! j = Some r' →
         r' = r)
      ∧ (table (delete_message e i (idle t)).2 !! j = Some r' → r' = r).
Proof.
  split.
  - intros j r r' Hj.
    destruct (update_message_table strftime e i data t)
      as [->|(r0 & b & Hi & _ & ->)]; [intros Hj'; by simplify_eq|].
    destruct (decide (i = j)) as [->|Hne].
    + rewrite lookup_insert_eq. intros [= <-]. by simplify_eq.
    + rewrite lookup_insert_ne by done. intros Hj'. by simplify_eq.
  - intros j r r' Hj. split; [|split].
    + rewrite get_messages_table. congruence.
    + destruct (create_message_table strftime e data t)
        as [->|(b & u & _ & _ & ->)]; [congruence|].
      rewrite lookup_insert_ne; [congruence|]. intros Heq.
      rewrite <-Heq, next_id_fresh in Hj. done.
    + destruct (delete_message_table e i t) as [->| ->]; [congruence|].
      intros [_ ?]%lookup_delete_Some. congruence.
Qed.

(** X9. GET and PATCH never add or remove a row: the ids in the table are
    the same before and after, however the request ends. POST removes none
    and adds at most one; DELETE adds none and removes at most one. *)
Theorem routes_and_the_set_of_ids
  (e : env) (i : Z) (data : json) (t : gmap Z row) :
  dom (table (get_messages strftime e (idle t)).2) = dom t
  ∧ dom (table (update_message strftime e i data (idle t)).2) = dom t
  ∧ (dom t ⊆ dom (table (create_message strftime e data (idle t)).2)
     ∧ (size (table (create_message strftime e data (idle t)).2)
        ≤ S (size t))%nat)
  ∧ (dom (table (delete_message e i (idle t)).2) ⊆ dom t
     ∧ (size t ≤ S (size (table (delete_message e i (idle t)).2)))%nat).
Proof.
  split; [by rewrite get_messages_table|]. split; [|split].
  - destruct (update_message_table strftime e i data t)
      as [->|(r & b & Hi & _ & ->)]; [done|].
    rewrite dom_insert_L. apply elem_of_dom_2 in Hi. set_solver.
  - destruct (create_message_table strftime e data t)
      as [->|(b & u & _ & _ & ->)]; [split; [done|lia]|].
    rewrite dom_insert_L, map_size_insert_None by apply next_id_fresh.
    split; [set_solver|lia].
  - destruct (delete_message_table e i t) as [->| ->];
      [split; [done|lia]|].
    rewrite dom_delete_L. split; [set_solver|].
    destruct (t !! i) as [r|] eqn:Hi.
    + pose proof (map_size_delete i t) as Hs. rewrite Hi in Hs.
      simpl in Hs. lia.
    + rewrite delete_id by done. lia.
Qed.

(** X10. If every row's updated_at, where set, is not before its
    created_at, and the clock of the request is not behind the created_at
    of any row, then the same holds of the table after the request,
    whichever route it was and however it ended. *)
Theorem updated_at_is_never_before_created_at
  (e : env) (i : Z) (data : json) (t : gmap Z row) :
  timestamps_ordered t → clock_not_behind e t →
  timestamps_ordered (table (get_messages strftime e (idle t)).2)
  ∧ timestamps_ordered (table (create_message strftime e data (idle t)).2)
  ∧ timestamps_ordered (table (update_message strftime e i data (idle t)).2)
  ∧ timestamps_ordered (table (delete_message e i (idle t)).2).
Proof.
  intros Ht Hclock. split; [by rewrite get_messages_table|]. split; [|split].
  - destruct (create_message_table strftime e data t)
      as [->|(b & u & _ & _ & ->)]; [done|].
    intros j r [[_ <-]|[_ Hj]]%lookup_insert_Some; [by left|by eapply Ht].
  - destruct (update_message_table strftime e i data t)
      as [->|(r0 & b & Hi & _ & ->)]; [done|].
    intros j r [[_ <-]|[_ Hj]]%lookup_insert_Some; [|by eapply Ht].
    right. simpl. by eapply Hclock.
  - destruct (delete_message_table e i t) as [->| ->]; [done|].
    intros j r [_ Hj]%lookup_delete_Some. by eapply Ht.
Qed.
End frame.

(** ** The order of the listing *)

(** A table has one listing only: the order by [created_at], then by
    [id], leaves no choice. *)
Lemma listed_before_antisym (a b : Message) :
  listed_before a b → listed_before b a → a = b.
Proof.
  intros [Hab Rab] [Hba Rba]. specialize (Rab Hba). specialize (Rba Hab).
  unfold id_lt in *. destruct (id a), (id b); try done. lia.
Qed.

Lemma listing_unique (t : gmap Z row) (l : list Message) :
  l ≡ₚ rows_of t → StronglySorted listed_before l →
  l = ordered_by_created_at t.
Proof.
  intros Hp Hs. apply (StronglySorted_unique_strong listed_before).
  - intros x1 x2 _ _. apply listed_before_antisym.
  - done.
  - apply ordered_by_created_at_sorted.
  - by rewrite ordered_by_created_at_Permutation.
Qed.

Lemma elem_of_rows_of (t : gmap Z row) (m : Message) :
  m ∈ rows_of t ↔ ∃ j r, t !! j = Some r ∧ m = load j r.
Proof.
  unfold rows_of. rewrite list_elem_of_fmap. split.
  - intros ([j r] & -> & Hj%elem_of_map_to_list). eauto.
  - intros (j & r & Hj & ->). exists (j, r). split; [done|].
    by apply elem_of_map_to_list.
Qed.

Lemma rows_of_delete (t : gmap Z row) (i : Z) (r : row) :
  t !! i = Some r → rows_of t ≡ₚ load i r :: rows_of (delete i t).
Proof.
  intros Hi. unfold rows_of. by rewrite <-(map_to_list_delete t i r Hi).
Qed.

Lemma filter_all {A : Type} (P : A → Prop) `{!∀ x, Decision (P x)}
  (l : list A) :
  (∀ x, x ∈ l → P x) → filter P l = l.
Proof.
  induction l as [|x l IH]; [done|]. intros Hl.
  rewrite filter_cons_True by (apply Hl; left).
  f_equal. apply IH. intros y Hy. apply Hl. by right.
Qed.

Lemma StronglySorted_filter {A : Type} (R : relation A) (P : A → Prop)
  `{!∀ x, Decision (P x)} (l : list A) :
  StronglySorted R l → StronglySorted R (filter P l).
Proof.
  induction 1 as [|x l Hl IH Hx]; [constructor|].
  destruct (decide (P x)).
  - rewrite filter_cons_True by done. constructor; [done|].
    apply Forall_forall. intros y [_ Hy]%list_elem_of_filter.
    rewrite Forall_forall in Hx. auto.
  - by rewrite filter_cons_False.
Qed.

Lemma patched_load (e : env) (i : Z) (b : json) (r : row) :
  patched e i b (load i r) = load i (patched_row e b r).
Proof. unfold patched. simpl. by rewrite decide_True. Qed.

Lemma patched_other (e : env) (i : Z) (b : json) (m : Message) :
  id m ≠ Some i → patched e i b m = m.
Proof. intros Hne. unfold patched. by rewrite decide_False. Qed.

Lemma patched_listed_before (e : env) (i : Z) (b : json) (m m' : Message) :
  listed_before m m' → listed_before (patched e i b m) (patched e i b m').
Proof.
  assert (∀ x, created_at (patched e i b x) = created_at x
               ∧ id (patched e i b x) = id x) as Hsame.
  { intros x. unfold patched. by destruct (decide _). }
  unfold listed_before, ties_by, created_le_msg, id_lt.
  destruct (Hsame m) as [-> ->], (Hsame m') as [-> ->]. done.
Qed.

Lemma ordered_by_created_at_patched
  (e : env) (i : Z) (b : json) (r : row) (t : gmap Z row) :
  t !! i = Some r →
  ordered_by_created_at (<[i := patched_row e b r]> t)
  = patched e i b <$> ordered_by_created_at t.
Proof.
  intros Hi. symmetry. apply listing_unique.
  - rewrite ordered_by_created_at_Permutation, (rows_of_delete t i r Hi).
    rewrite <-insert_delete_eq, rows_of_insert by apply lookup_delete_eq.
    rewrite fmap_cons, patched_load. f_equiv.
    erewrite list_fmap_ext; [by rewrite list_fmap_id|].
    intros k m Hm%list_elem_of_lookup_2. simpl. apply patched_other.
    apply elem_of_rows_of in Hm as (j & r' & [Hne _]%lookup_delete_Some & ->).
    simpl. congruence.
  - eapply StronglySorted_fmap; [|apply ordered_by_created_at_sorted].
    intros x y. apply patched_listed_before.
Qed.

Lemma ordered_by_created_at_created
  (e : env) (b u : json) (t : gmap Z row) :
  clock_not_behind e t →
  ordered_by_created_at (<[next_id t := created_row e b u]> t)
  = ordered_by_created_at t ++ [load (next_id t) (created_row e b u)].
Proof.
  intros Hclock. symmetry. apply listing_unique.
  - rewrite rows_of_insert by apply next_id_fresh.
    by rewrite <-Permutation_cons_append, ordered_by_created_at_Permutation.
  - apply StronglySorted_app_2;
      [|apply ordered_by_created_at_sorted|repeat constructor].
    intros x1 x2 H1 ->%list_elem_of_singleton.
    rewrite ordered_by_created_at_Permutation in H1.
    apply elem_of_rows_of in H1 as (j & r & Hj & ->). split.
    + by eapply Hclock.
    + intros _. unfold id_lt. simpl.
      destruct (max_key_bound _ _ _ Hj) as (k & Hk & Hle).
      unfold next_id. rewrite Hk. lia.
Qed.

Lemma ordered_by_created_at_deleted (i : Z) (t : gmap Z row) :
  ordered_by_created_at (delete i t)
  = filter (λ m, id m ≠ Some i) (ordered_by_created_at t).
Proof.
  symmetry. apply listing_unique;
    [|apply StronglySorted_filter, ordered_by_created_at_sorted].
  rewrite ordered_by_created_at_Permutation.
  assert (filter (λ m, id m ≠ Some i) (rows_of (delete i t))
          = rows_of (delete i t)) as Hrest.
  { apply filter_all. intros m Hm.
    apply elem_of_rows_of in Hm as (j & r' & [Hne _]%lookup_delete_Some & ->).
    simpl. congruence. }
  destruct (t !! i) as [r|] eqn:Hi.
  - rewrite (rows_of_delete t i r Hi), filter_cons_False; [by rewrite Hrest|].
    simpl. by intros []. 
  - rewrite delete_id in Hrest |- * by done. by rewrite Hrest.
Qed.

Section requests_in_sequence.
Context (strftime : datetime → string).

(** X11. PATCH never reorders the listing GET /messages gives: whatever
    the request and however it ends, the ids are listed in the same order
    after it as before, and every message but the one with the id of the
    request is at the position it had, unchanged. *)
Theorem patch_does_not_reorder_the_listing
  (e : env) (i : Z) (data : json) (t : gmap Z row) :
  listed_ids (table (update_message strftime e i data (idle t)).2)
  = listed_ids t
  ∧ ∀ k m, ordered_by_created_at t !! k = Some m → id m ≠ Some i →
           ordered_by_created_at
             (table (update_message strftime e i data (idle t)).2) !! k
           = Some m.
Proof.
  destruct (update_message_table strftime e i data t)
    as [->|(r & b & Hi & _ & ->)]; [done|].
  rewrite ordered_by_created_at_patched by done. split.
  - unfold listed_ids. rewrite ordered_by_created_at_patched by done.
    rewrite <-list_fmap_compose. apply list_fmap_ext. intros k m _. simpl.
    unfold patched. by destruct (decide _).
  - intros k m Hk Hne. rewrite list_lookup_fmap, Hk. simpl.
    by rewrite patched_other.
Qed.

(** X12. When the clock is not behind the created_at of any row, a message
    that POST creates is listed last: a GET after the POST answers with the
    listing as it was before, followed by the new message, whose body and
    username are what the columns hold for the values of the request. *)
Theorem a_new_message_is_listed_last
  (e e' : env) (data b u vb vu : json) (t : gmap Z row) :
  clock_not_behind e t →
  commit_fault e = None → refresh_fault e = None → query_fault e' = None →
  field "body" data = Some b → field "username" data = Some u →
  truthy b = true → truthy u = true →
  as_text b = Some vb → as_text u = Some vu →
  (get_messages strftime e'
     (idle (table (create_message strftime e data (idle t)).2))).1
  = Ok (make_response
          (JArr (to_dict strftime
                 <$> ordered_by_created_at t
                     ++ [load (next_id t) (created_row e vb vu)])) 200).
Proof.
  intros Hclock Hc Hr Hq Hb Hu Tb Tu Bb Bu.
  rewrite (create_message_stored _ _ _ _ _ _ _ _ Hb Hu Tb Tu Bb Bu Hc Hr).
  simpl.
  rewrite (get_messages_listed _ _ _ Hq). simpl.
  by rewrite ordered_by_created_at_created.
Qed.

(** X13. DELETE keeps the order of the messages it leaves: when the
    persistence layer does not fail, a GET after DELETE of id i answers
    with the listing as it was before, without the message of id i (the
    whole listing when there was none). *)
Theorem delete_keeps_the_order_of_the_rest
  (e e' : env) (i : Z) (t : gmap Z row) :
  query_fault e = None → commit_fault e = None → query_fault e' = None →
  (get_messages strftime e' (idle (table (delete_message e i (idle t)).2))).1
  = Ok (make_response
          (JArr (to_dict strftime
                 <$> filter (λ m, id m ≠ Some i) (ordered_by_created_at t)))
          200).
Proof.
  intros Hq Hc Hq'. rewrite <-ordered_by_created_at_deleted.
  destruct (t !! i) as [r|] eqn:Hi.
  - rewrite (delete_message_deleted _ _ _ r Hq Hc Hi). simpl.
    by rewrite (get_messages_listed _ _ _ Hq').
  - rewrite (delete_message_unknown _ _ _ Hq Hi). simpl.
    rewrite (get_messages_listed _ _ _ Hq'). simpl.
    by rewrite delete_id.
Qed.

(** X14. DELETE undoes POST: when POST answers 201 and the persistence
    layer does not fail for the DELETE, deleting the id the 201 answer
    carries gives back the table as it was before the POST. *)
Theorem delete_undoes_post
  (e e' : env) (data : json) (t : gmap Z row)
  (resp : response) (s1 : session) (i : Z) :
  query_fault e' = None → commit_fault e' = None →
  create_message strftime e data (idle t) = (Ok resp, s1) →
  status resp = 201 → field "id" (payload resp) = Some (JNum i) →
  table (delete_message e' i (idle (table s1))).2 = t.
Proof.
  intros Hq Hc Hpost Hstatus Hid.
  destruct (create_message_cases strftime e data t)
    as [H|[(ex & _ & H)|[(b & u & _ & _ & H)
        |[(ex & H)|(b & u & ex & _ & _ & _ & H)]]]];
    rewrite H in Hpost; simplify_eq; try done.
  - simpl in Hid. injection Hid as <-. simpl.
    erewrite delete_message_deleted;
      [|done|done|apply lookup_insert_eq].
    simpl. apply delete_insert_id, next_id_fresh.
  - by destruct ex.
  - by destruct ex.
Qed.

(** X15. Once a DELETE of id i has been through a persistence layer that
    does not fail, the id is unknown: a PATCH or a second DELETE of it is
    answered with the 404 object, whatever the body of the PATCH. *)
Theorem a_deleted_id_is_unknown
  (e e' : env) (i : Z) (data : json) (t : gmap Z row) :
  query_fault e = None → commit_fault e = None → query_fault e' = None →
  (update_message strftime e' i data
     (idle (table (delete_message e i (idle t)).2))).1
  = Ok not_found_response
  ∧ (delete_message e' i (idle (table (delete_message e i (idle t)).2))).1
    = Ok not_found_response.
Proof.
  intros Hq Hc Hq'.
  assert (table (delete_message e i (idle t)).2 !! i = None) as Hgone.
  { destruct (t !! i) as [r|] eqn:Hi.
    - rewrite (delete_message_deleted _ _ _ r Hq Hc Hi). simpl.
      apply lookup_delete_eq.
    - by rewrite (delete_message_unknown _ _ _ Hq Hi). }
  split.
  - by rewrite (update_message_unknown _ _ _ _ _ Hq' Hgone).
  - by rewrite (delete_message_unknown _ _ _ Hq' Hgone).
Qed.

(** X16. The session is rolled back exactly when a route caught an
    exception. GET never commits, and rolls back exactly when it does not
    answer 200. POST, PATCH and DELETE roll back exactly when they called
    commit and do not report success; a request turned down before the
    commit (400 or 404), or one whose exception escapes the route, rolls
    nothing back. *)
Theorem rollback_follows_every_caught_failure
  (e : env) (i : Z) (data : json) (t : gmap Z row) :
  (committed (get_messages strftime e (idle t)).2 = false
   ∧ rolled_back (get_messages strftime e (idle t)).2
     = negb (reports_success (get_messages strftime e (idle t)).1))
  ∧ rolled_back (create_message strftime e data (idle t)).2
    = committed (create_message strftime e data (idle t)).2
      && negb (reports_success (create_message strftime e data (idle t)).1)
  ∧ rolled_back (update_message strftime e i data (idle t)).2
    = committed (update_message strftime e i data (idle t)).2
      && negb (reports_success (update_message strftime e i data (idle t)).1)
  ∧ rolled_back (delete_message e i (idle t)).2
    = committed (delete_message e i (idle t)).2
      && negb (reports_success (delete_message e i (idle t)).1).
Proof.
  split; [|split; [|split]].
  - destruct (query_fault e) as [ex|] eqn:Hq.
    + by rewrite (get_messages_failed _ _ _ _ Hq).
    + by rewrite (get_messages_listed _ _ _ Hq).
  - destruct (create_message_cases strftime e data t)
      as [->|[(ex & _ & ->)|[(b & u & _ & _ & ->)
          |[(ex & ->)|(b & u & ex & _ & _ & _ & ->)]]]];
      try done; by destruct ex.
  - destruct (update_message_cases strftime e i data t)
      as [(ex & ->)|[(r0 & [-> | ->] & ->)|[(r & b & _ & _ & ->)
          |[(ex & ->)|(r & b & ex & _ & _ & _ & ->)]]]];
      try done; by destruct ex.
  - destruct (delete_message_cases e i t)
      as [(ex & ->)|[->|[(r & _ & ->)| ->]]]; done.
Qed.
End requests_in_sequence.

(** ** What the columns hold *)

Lemma as_text_idem (v w : json) : as_text v = Some w → as_text w = Some w.
Proof.
  unfold as_text. destruct v as [|b|n|s|items|fields]; try done;
    try by intros [= <-].
  case_match; [|done]. by intros [= <-].
Qed.

Lemma set_column_is_text (old v w : json) :
  as_text old = Some old → set_column old v = Some w → as_text w = Some w.
Proof.
  unfold set_column. intros Hold. destruct (json_eqb v old).
  - by intros [= <-].
  - apply as_text_idem.
Qed.

Section stored_text.
Context (strftime : datetime → string).

(** X19. The routes write nothing but text into body and username: if
    every row of the table holds text (or NULL) in both, so does every
    row after a request, whatever the request, numbers and booleans
    included, and however it ends. *)
Theorem rows_hold_text_only
  (e : env) (i : Z) (data : json) (t : gmap Z row) :
  text_rows t →
  text_rows (table (get_messages strftime e (idle t)).2)
  ∧ text_rows (table (create_message strftime e data (idle t)).2)
  ∧ text_rows (table (update_message strftime e i data (idle t)).2)
  ∧ text_rows (table (delete_message e i (idle t)).2).
Proof.
  intros Ht. split; [by rewrite get_messages_table|]. split; [|split].
  - destruct (create_message_effect strftime e data t)
      as [->|(b & u & vb & vu & _ & _ & Bb & Bu & ->)]; [done|].
    intros j r [[_ <-]|[_ Hj]]%lookup_insert_Some; [|by eapply Ht].
    simpl. split; [apply (as_text_idem _ _ Bb)|apply (as_text_idem _ _ Bu)].
  - destruct (update_message_effect strftime e i data t)
      as [->|(r0 & b & vb & Hi & _ & Bb & ->)]; [done|].
    intros j r [[_ <-]|[_ Hj]]%lookup_insert_Some; [|by eapply Ht].
    destruct (Ht i r0 Hi) as [Hbody Huser]. simpl. split; [|done].
    apply (set_column_is_text _ _ _ Hbody Bb).
  - destruct (delete_message_table e i t) as [->| ->]; [done|].
    intros j r [_ Hj]%lookup_delete_Some. by eapply Ht.
Qed.
End stored_text.

Section repeated_post.
Context (strftime : datetime → string).

(** X17. POST is not idempotent and never merges: the same valid request
    sent twice, with a persistence layer that raises nothing, leaves two
    more rows than there were, under two different new ids, each with what
    the columns hold for the body and the username of the request and the
    time of its own request as created_at. *)
Theorem post_twice_creates_two_messages
  (e e' : env) (data b u vb vu : json) (t : gmap Z row) :
  commit_fault e = None → refresh_fault e = None →
  commit_fault e' = None → refresh_fault e' = None →
  field "body" data = Some b → field "username" data = Some u →
  truthy b = true → truthy u = true →
  as_text b = Some vb → as_text u = Some vu →
  ∃ i1 i2,
    i1 ≠ i2 ∧ t !! i1 = None ∧ t !! i2 = None
    ∧ table (create_message strftime e' data
               (idle (table (create_message strftime e data (idle t)).2))).2
      = <[i2 := created_row e' vb vu]> (<[i1 := created_row e vb vu]> t)
    ∧ size (table (create_message strftime e' data
                     (idle (table (create_message strftime e data
                                     (idle t)).2))).2)
      = S (S (size t)).
Proof.
  intros Hc Hr Hc' Hr' Hb Hu Tb Tu Bb Bu.
  rewrite (create_message_stored _ _ _ _ _ _ _ _ Hb Hu Tb Tu Bb Bu Hc Hr).
  simpl.
  rewrite (create_message_stored _ _ _ _ _ _ _ _ Hb Hu Tb Tu Bb Bu Hc' Hr').
  simpl.
  set (t1 := <[next_id t := created_row e vb vu]> t).
  pose proof (next_id_fresh t) as Hfresh.
  pose proof (next_id_fresh t1) as Hfresh1.
  assert (next_id t ≠ next_id t1) as Hne.
  { intros Heq. rewrite <-Heq in Hfresh1. unfold t1 in Hfresh1.
    by rewrite lookup_insert_eq in Hfresh1. }
  exists (next_id t), (next_id t1). split; [done|]. split; [done|].
  split; [|split; [done|]].
  - unfold t1 in Hfresh1. by rewrite lookup_insert_ne in Hfresh1.
  - rewrite map_size_insert_None by done. unfold t1.
    by rewrite map_size_insert_None.
Qed.
End repeated_post.

(** ** The further properties at work on small tables *)

Lemma two_messages_timestamps : timestamps_ordered two_messages.
Proof.
  intros i r Hi. unfold two_messages in Hi.
  apply lookup_insert_Some in Hi as [[_ <-]|[_ Hi]]; [by left|].
  apply lookup_singleton_Some in Hi as [_ <-]. by right.
Qed.

Lemma two_messages_text : text_rows two_messages.
Proof.
  intros i r Hi. unfold two_messages in Hi.
  apply lookup_insert_Some in Hi as [[_ <-]|[_ Hi]]; [done|].
  by apply lookup_singleton_Some in Hi as [_ <-].
Qed.

Lemma two_messages_clock : clock_not_behind (quiet 200) two_messages.
Proof.
  intros i r Hi. unfold two_messages in Hi.
  apply lookup_insert_Some in Hi as [[_ <-]|[_ Hi]]; [done|].
  by apply lookup_singleton_Some in Hi as [_ <-].
Qed.

Lemma unsuccessful_requests_change_nothing_witness :
  harmless_unless_success one_message
    (create_message pretty (mkEnv 200 None (Some (DatabaseError "down")) None)
       hi_from_ana (idle one_message))
  ∧ harmless_unless_success one_message
      (update_message pretty
         (mkEnv 200 None (Some (DatabaseError "down")) None) 1
         hi_from_ana (idle one_message)).
Proof.
  apply (unsuccessful_requests_change_nothing pretty
           (mkEnv 200 None (Some (DatabaseError "down")) None) 1
           hi_from_ana one_message).
  reflexivity.
Defined.

Lemma post_body_that_is_not_a_dict_witness :
  create_message pretty (quiet 200) (JNum 7) (idle one_message)
  = (Raise TypeError, idle one_message)
  ∧ create_message pretty (quiet 200)
      (JArr [JStr "body"; JStr "username"]) (idle one_message)
    = (Raise AttributeError, idle one_message)
  ∧ create_message pretty (quiet 200) (JArr [JStr "body"]) (idle one_message)
    = (Ok bad_request_response, idle one_message).
Proof.
  destruct (post_body_that_is_not_a_dict pretty (quiet 200) 7
              [JStr "body"; JStr "username"] one_message)
    as (Hnum & _ & Hboth & _).
  destruct (post_body_that_is_not_a_dict pretty (quiet 200) 7
              [JStr "body"] one_message) as (_ & _ & _ & Hone).
  split; [apply Hnum; lia|]. split.
  - apply Hboth; repeat constructor.
  - apply Hone. right. by intros [=]%list_elem_of_singleton.
Defined.

Lemma patch_body_that_is_not_a_dict_witness :
  update_message pretty (quiet 200) 1 (JNum 7) (idle one_message)
  = (Raise TypeError, mkSession one_message [] [CallQueryGet 1])
  ∧ update_message pretty (quiet 200) 1 (JArr [JStr "body"])
      (idle one_message)
    = (Raise AttributeError, mkSession one_message [] [CallQueryGet 1])
  ∧ update_message pretty (quiet 200) 1 (JArr [JStr "text"])
      (idle one_message)
    = (Ok bad_request_response, mkSession one_message [] [CallQueryGet 1]).
Proof.
  destruct (patch_body_that_is_not_a_dict pretty (quiet 200) 1 7
              [JStr "body"] one_message
              (mkRow (JStr "hi") (JStr "ana") (Some 100) None)
              eq_refl eq_refl) as (Hnum & _ & Hin & _).
  destruct (patch_body_that_is_not_a_dict pretty (quiet 200) 1 7
              [JStr "text"] one_message
              (mkRow (JStr "hi") (JStr "ana") (Some 100) None)
              eq_refl eq_refl) as (_ & _ & _ & Hout).
  split; [apply Hnum; lia|]. split.
  - apply Hin. repeat constructor.
  - apply Hout. by intros [=]%list_elem_of_singleton.
Defined.

Lemma a_failing_query_is_caught_by_get_only_witness :
  get_messages pretty (mkEnv 200 (Some (DatabaseError "down")) None None)
    (idle one_message)
  = (Ok (make_response (JObj [("error", JStr "Internal Server Error")]) 500),
     mkSession one_message [] [CallQueryAll; CallRollback])
  ∧ update_message pretty (mkEnv 200 (Some (DatabaseError "down")) None None) 1
      hi_there (idle one_message)
    = (Raise (DatabaseError "down"),
       mkSession one_message [] [CallQueryGet 1])
  ∧ delete_message (mkEnv 200 (Some (DatabaseError "down")) None None) 1
      (idle one_message)
    = (Raise (DatabaseError "down"),
       mkSession one_message [] [CallQueryGet 1]).
Proof.
  apply (a_failing_query_is_caught_by_get_only pretty
           (mkEnv 200 (Some (DatabaseError "down")) None None) 1 hi_there
           one_message (DatabaseError "down")).
  reflexivity.
Defined.



Lemma a_request_touches_one_row_at_most_witness :
  table (create_message pretty (quiet 200) hi_from_ana
           (idle two_messages)).2 !! 2
  = Some (mkRow (JStr "yo") (JStr "bob") (Some 50) (Some 60))
  ∧ table (update_message pretty (quiet 200) 1 hi_there
             (idle two_messages)).2 !! 2
    = two_messages !! 2
  ∧ table (delete_message (quiet 200) 1 (idle two_messages)).2 !! 2
    = two_messages !! 2.
Proof.
  split; [|split].
  - apply (a_request_touches_one_row_at_most pretty (quiet 200) 1
             hi_from_ana two_messages).
    reflexivity.
  - apply (a_request_touches_one_row_at_most pretty (quiet 200) 1
             hi_there two_messages).
    lia.
  - apply (a_request_touches_one_row_at_most pretty (quiet 200) 1
             hi_there two_messages).
    lia.
Defined.

Lemma username_and_created_at_never_change_witness :
  (row_username (mkRow (JStr "hi there") (JStr "ana") (Some 100) (Some 200))
   = JStr "ana"
   ∧ row_created_at
       (mkRow (JStr "hi there") (JStr "ana") (Some 100) (Some 200))
     = Some 100)
  ∧ mkRow (JStr "yo") (JStr "bob") (Some 50) (Some 60)
    = mkRow (JStr "yo") (JStr "bob") (Some 50) (Some 60).
Proof.
  destruct (username_and_created_at_never_change pretty (quiet 200) 1
              hi_there two_messages) as [Hpatch Hrest].
  split.
  - apply (Hpatch 1 (mkRow (JStr "hi") (JStr "ana") (Some 100) None)
             (mkRow (JStr "hi there") (JStr "ana") (Some 100) (Some 200)));
      reflexivity.
  - apply (Hrest 2 (mkRow (JStr "yo") (JStr "bob") (Some 50) (Some 60))
             (mkRow (JStr "yo") (JStr "bob") (Some 50) (Some 60)));
      reflexivity.
Defined.

Lemma updated_at_is_never_before_created_at_witness :
  timestamps_ordered
    (table (get_messages pretty (quiet 200) (idle two_messages)).2)
  ∧ timestamps_ordered
      (table (create_message pretty (quiet 200) hi_from_ana
                (idle two_messages)).2)
  ∧ timestamps_ordered
      (table (update_message pretty (quiet 200) 1 hi_there
                (idle two_messages)).2)
  ∧ timestamps_ordered
      (table (delete_message (quiet 200) 1 (idle two_messages)).2).
Proof.
  destruct (updated_at_is_never_before_created_at pretty (quiet 200) 1
              hi_from_ana two_messages two_messages_timestamps
              two_messages_clock) as (Hget & Hpost & _ & Hdelete).
  destruct (updated_at_is_never_before_created_at pretty (quiet 200) 1
              hi_there two_messages two_messages_timestamps
              two_messages_clock) as (_ & _ & Hpatch & _).
  done.
Defined.

Lemma patch_does_not_reorder_the_listing_witness :
  ordered_by_created_at
    (table (update_message pretty (quiet 200) 1 hi_there
              (idle two_messages)).2) !! 0%nat
  = Some (mkMessage (Some 2) (JStr "yo") (JStr "bob") (Some 50) (Some 60)).
Proof.
  apply (patch_does_not_reorder_the_listing pretty (quiet 200) 1 hi_there
           two_messages).
  - reflexivity.
  - discriminate.
Defined.

Lemma a_new_message_is_listed_last_witness :
  (get_messages pretty (quiet 300)
     (idle (table (create_message pretty (quiet 200) hi_from_ana
                     (idle two_messages)).2))).1
  = Ok (make_response
          (JArr (to_dict pretty
                 <$> [mkMessage (Some 2) (JStr "yo") (JStr "bob") (Some 50)
                                (Some 60);
                      mkMessage (Some 1) (JStr "hi") (JStr "ana") (Some 100)
                                None;
                      mkMessage (Some 3) (JStr "hi") (JStr "ana") (Some 200)
                                None])) 200).
Proof.
  apply (a_new_message_is_listed_last pretty (quiet 200) (quiet 300)
           hi_from_ana (JStr "hi") (JStr "ana") (JStr "hi") (JStr "ana")
           two_messages two_messages_clock);
    reflexivity.
Defined.

Lemma delete_keeps_the_order_of_the_rest_witness :
  (get_messages pretty (quiet 300)
     (idle (table (delete_message (quiet 200) 2 (idle two_messages)).2))).1
  = Ok (make_response
          (JArr (to_dict pretty
                 <$> [mkMessage (Some 1) (JStr "hi") (JStr "ana") (Some 100)
                                None])) 200).
Proof.
  apply (delete_keeps_the_order_of_the_rest pretty (quiet 200) (quiet 300) 2
           two_messages);
    reflexivity.
Defined.

Lemma delete_undoes_post_witness :
  table (delete_message (quiet 300) 3
           (idle (table (create_message pretty (quiet 200) hi_from_ana
                           (idle two_messages)).2))).2
  = two_messages.
Proof.
  apply (delete_undoes_post pretty (quiet 200) (quiet 300) hi_from_ana
           two_messages
           (make_response
              (to_dict pretty
                 (mkMessage (Some 3) (JStr "hi") (JStr "ana") (Some 200)
                            None)) 201)
           (create_message pretty (quiet 200) hi_from_ana
              (idle two_messages)).2 3);
    reflexivity.
Defined.

Lemma a_deleted_id_is_unknown_witness :
  (update_message pretty (quiet 300) 1 hi_there
     (idle (table (delete_message (quiet 200) 1 (idle two_messages)).2))).1
  = Ok not_found_response
  ∧ (delete_message (quiet 300) 1
       (idle (table (delete_message (quiet 200) 1 (idle two_messages)).2))).1
    = Ok not_found_response.
Proof.
  apply (a_deleted_id_is_unknown pretty (quiet 200) (quiet 300) 1 hi_there
           two_messages);
    reflexivity.
Defined.

Lemma post_twice_creates_two_messages_witness :
  ∃ i1 i2,
    i1 ≠ i2 ∧ two_messages !! i1 = None ∧ two_messages !! i2 = None
    ∧ table (create_message pretty (quiet 300) hi_from_ana
               (idle (table (create_message pretty (quiet 200) hi_from_ana
                               (idle two_messages)).2))).2
      = <[i2 := created_row (quiet 300) (JStr "hi") (JStr "ana")]>
          (<[i1 := created_row (quiet 200) (JStr "hi") (JStr "ana")]>
             two_messages)
    ∧ size (table (create_message pretty (quiet 300) hi_from_ana
                     (idle (table (create_message pretty (quiet 200)
                                     hi_from_ana (idle two_messages)).2))).2)
      = S (S (size two_messages)).
Proof.
  apply (post_twice_creates_two_messages pretty (quiet 200) (quiet 300)
           hi_from_ana (JStr "hi") (JStr "ana") (JStr "hi") (JStr "ana")
           two_messages);
    reflexivity.
Defined.

Lemma rows_hold_text_only_witness :
  text_rows (table (get_messages pretty (quiet 200) (idle two_messages)).2)
  ∧ text_rows
      (table (create_message pretty (quiet 200)
                (JObj [("body", JNum 5); ("username", JBool true)])
                (idle two_messages)).2)
  ∧ text_rows
      (table (update_message pretty (quiet 200) 1
                (JObj [("body", JNum 5); ("username", JBool true)])
                (idle two_messages)).2)
  ∧ text_rows (table (delete_message (quiet 200) 1 (idle two_messages)).2).
Proof.
  apply (rows_hold_text_only pretty (quiet 200) 1
           (JObj [("body", JNum 5); ("username", JBool true)]) two_messages).
  apply two_messages_text.
Defined.
